(** * Namicorn: blockchain domain resolution

    A shallow embedding of the resolution dispatcher ([namicorn.ts]), the
    CNS backend ([cns.ts]), the abstract Ethereum naming service
    ([EthereumNamingService.ts]) and the ZNS backend (the class next to the
    [NamingService] interface), followed by the properties that the
    specification states about them.

    Conventions of the embedding:
    - a JavaScript string is a [string]; its characters are 8-bit code
      units and case conversion acts on the ASCII letters, so the model
      covers ASCII text, as domain names, tickers and record keys are;
    - a value that may be [null] or [undefined] is an [option];
    - an [async] function is a function into [result]: [Ok v] is a promise
      that resolves to [v], [Err e] one that rejects with [e].  The chain is
      a pure oracle, so the order of independent reads is immaterial;
    - the blockchain clients are Section variables: what a contract call or
      a state read returns is not decided by this code. *)

From Stdlib Require Import String Ascii List ZArith Bool Lia DecimalString.
Import ListNotations.

Local Open Scope string_scope.
Local Open Scope Z_scope.

(* ================================================================== *)
(** * JavaScript primitives used by the sources *)
(* ================================================================== *)

Module Js.

(** [!v] is false for a non-empty string only. *)
Definition truthy (v : option string) : bool :=
  match v with
  | Some s => negb (s =? "")%string
  | None => false
  end.

(** [s.indexOf(needle)], counting from [i]. *)
Fixpoint indexOfFrom (needle s : string) (i : Z) : Z :=
  if String.prefix needle s then i
  else match s with
       | EmptyString => -1
       | String _ s' => indexOfFrom needle s' (i + 1)
       end.

Definition indexOf (needle s : string) : Z := indexOfFrom needle s 0.

Definition startsWith (p s : string) : bool := String.prefix p s.

(** [s.replace(pat, by)] with a string pattern: the first occurrence only. *)
Fixpoint replace (pat by_ s : string) : string :=
  if String.prefix pat s
  then by_ ++ String.substring (String.length pat)
                               (String.length s - String.length pat) s
  else match s with
       | EmptyString => EmptyString
       | String c s' => String c (replace pat by_ s')
       end.

Definition upper_char (c : ascii) : ascii :=
  let n := nat_of_ascii c in
  if ((97 <=? n) && (n <=? 122))%nat then ascii_of_nat (n - 32) else c.

Definition lower_char (c : ascii) : ascii :=
  let n := nat_of_ascii c in
  if ((65 <=? n) && (n <=? 90))%nat then ascii_of_nat (n + 32) else c.

Fixpoint map_string (f : ascii -> ascii) (s : string) : string :=
  match s with
  | EmptyString => EmptyString
  | String c s' => String (f c) (map_string f s')
  end.

Definition toUpperCase : string -> string := map_string upper_char.
Definition toLowerCase : string -> string := map_string lower_char.

(** [s.split(sep)] for a one-character separator. *)
Fixpoint split_acc (sep : ascii) (s cur : string) : list string :=
  match s with
  | EmptyString => [cur]
  | String c s' =>
      if Ascii.eqb c sep then cur :: split_acc sep s' EmptyString
      else split_acc sep s' (cur ++ String c EmptyString)
  end.

Definition split (sep : ascii) (s : string) : list string :=
  split_acc sep s EmptyString.

(** ** [parseInt(s)]: leading white space, a sign, an optional [0x]
    prefix, then the longest run of digits; [None] is [NaN].  The result
    is the exact integer, which the double of JavaScript is up to 2^53. *)

Definition is_space (c : ascii) : bool :=
  let n := nat_of_ascii c in
  ((n =? 32) || (n =? 9) || (n =? 10) || (n =? 11) || (n =? 12) || (n =? 13)
   || (n =? 160))%nat.

Fixpoint skip_spaces (s : string) : string :=
  match s with
  | String c s' => if is_space c then skip_spaces s' else s
  | EmptyString => s
  end.

Definition digit_value (radix : Z) (c : ascii) : option Z :=
  let n := Z.of_nat (nat_of_ascii c) in
  let v := if (48 <=? n) && (n <=? 57) then n - 48
           else if (97 <=? n) && (n <=? 122) then n - 87
           else if (65 <=? n) && (n <=? 90) then n - 55
           else 99 in
  if v <? radix then Some v else None.

Fixpoint digits (radix : Z) (s : string) (acc : option Z) : option Z :=
  match s with
  | EmptyString => acc
  | String c s' =>
      match digit_value radix c with
      | Some v =>
          digits radix s' (Some (match acc with
                                 | Some a => a * radix + v
                                 | None => v
                                 end))
      | None => acc
      end
  end.

Definition parseInt (v : option string) : option Z :=
  match v with
  | None => None
  | Some s0 =>
      let s := skip_spaces s0 in
      let '(sign, s) :=
        match s with
        | String "-" s' => (-1, s')
        | String "+" s' => (1, s')
        | _ => (1, s)
        end in
      let '(radix, s) :=
        match s with
        | String "0" (String "x" s') => (16, s')
        | String "0" (String "X" s') => (16, s')
        | _ => (10, s)
        end in
      option_map (Z.mul sign) (digits radix s None)
  end.

(** The string that a value known to be truthy is. *)
Definition str (v : option string) : string :=
  match v with
  | Some s => s
  | None => EmptyString
  end.

(** [n || 0] on a number: [NaN] and [0] both give [0]. *)
Definition orZero (n : option Z) : Z :=
  match n with
  | Some z => z
  | None => 0
  end.

(** ** Regular expressions

    Only what the sources' literals use: characters, [.], sequence,
    alternation and repetition.  [.] matches any character except a line
    terminator; of those, line feed and carriage return are code units of
    the model. *)

Inductive regex : Type :=
| Void : regex
| Eps : regex
| Chr : ascii -> regex
| Dot : regex
| Cat : regex -> regex -> regex
| Alt : regex -> regex -> regex
| Star : regex -> regex.

Definition line_terminator (c : ascii) : bool :=
  let n := nat_of_ascii c in ((n =? 10) || (n =? 13))%nat.

Fixpoint nullable (r : regex) : bool :=
  match r with
  | Void => false
  | Eps => true
  | Chr _ => false
  | Dot => false
  | Cat r1 r2 => nullable r1 && nullable r2
  | Alt r1 r2 => nullable r1 || nullable r2
  | Star _ => true
  end.

Fixpoint deriv (c : ascii) (r : regex) : regex :=
  match r with
  | Void => Void
  | Eps => Void
  | Chr a => if Ascii.eqb a c then Eps else Void
  | Dot => if line_terminator c then Void else Eps
  | Cat r1 r2 =>
      if nullable r1
      then Alt (Cat (deriv c r1) r2) (deriv c r2)
      else Cat (deriv c r1) r2
  | Alt r1 r2 => Alt (deriv c r1) (deriv c r2)
  | Star r1 => Cat (deriv c r1) (Star r1)
  end.

(** The whole of [s] matches [r]: [/^r$/.test(s)]. *)
Fixpoint matches (r : regex) (s : string) : bool :=
  match s with
  | EmptyString => nullable r
  | String c s' => matches (deriv c r) s'
  end.

(** Some prefix of [s] matches [r]. *)
Fixpoint matches_prefix (r : regex) (s : string) : bool :=
  nullable r ||
  match s with
  | EmptyString => false
  | String c s' => matches_prefix (deriv c r) s'
  end.

(** Some substring of [s] matches [r]: [/r/.test(s)], and the truth value
    of [s.match(/r/)]. *)
Fixpoint search (r : regex) (s : string) : bool :=
  matches_prefix r s ||
  match s with
  | EmptyString => false
  | String _ s' => search r s'
  end.

(** A literal. *)
Fixpoint Lit (s : string) : regex :=
  match s with
  | EmptyString => Eps
  | String c s' => Cat (Chr c) (Lit s')
  end.

(** [r{1,}] *)
Definition Plus (r : regex) : regex := Cat r (Star r).

(** [(a|b|...)] *)
Fixpoint AltLits (l : list string) : regex :=
  match l with
  | [] => Void
  | [s] => Lit s
  | s :: l' => Alt (Lit s) (AltLits l')
  end.

End Js.

(* ================================================================== *)
(** * Errors and results *)
(* ================================================================== *)

(** The codes of [ResolutionError].  [namicorn.ts] writes them as string
    literals ('UnsupportedDomain', 'UnregisteredDomain',
    'UnregisteredCurrency'), [cns.ts] and [EthereumNamingService.ts] as
    members of [ResolutionErrorCode]. *)
Inductive ResolutionErrorCode : Type :=
| UnsupportedDomain
| UnregisteredDomain
| UnspecifiedResolver
| UnspecifiedCurrency
| UnregisteredCurrency
| RecordNotFound
| NamingServiceDown.

(** What a [throw] carries: a [ResolutionError] with its code and
    parameters, or any other error, of which only the message matters. *)
Inductive exn : Type :=
| ResolutionError (code : ResolutionErrorCode) (params : list (string * string))
| JsError (message : string).

(** [e instanceof ResolutionError] *)
Definition isResolutionError (e : exn) : bool :=
  match e with
  | ResolutionError _ _ => true
  | JsError _ => false
  end.

Inductive result (A : Type) : Type :=
| Ok (a : A)
| Err (e : exn).

Arguments Ok {A} a.
Arguments Err {A} e.

Definition bind {A B : Type} (m : result A) (k : A -> result B) : result B :=
  match m with
  | Ok a => k a
  | Err e => Err e
  end.

Declare Scope result_scope.
Delimit Scope result_scope with result.
Notation "x <- m ;; k" := (bind m (fun x => k))
  (at level 61, m at next level, right associativity) : result_scope.
Notation "' p <- m ;; k" := (bind m (fun x => let 'p := x in k))
  (at level 61, p pattern, m at next level, right associativity) : result_scope.
Local Open Scope result_scope.

(** The error that reading a property of [undefined] raises. *)
Definition TypeError (what : string) : exn :=
  JsError ("TypeError: Cannot read property '" ++ what ++ "' of undefined").

Definition NullAddress : string := "0x0000000000000000000000000000000000000000".

(* ================================================================== *)
(** * The unified result ([types.ts]) *)
(* ================================================================== *)

Module Types.

Record Meta : Type := {
  owner : option string;
  type : string;
  ttl : Z
}.

(** [addresses] is an object used as a map from ticker to address; the
    order of its keys is kept. *)
Record NamicornResolution : Type := {
  addresses : list (string * option string);
  meta : Meta
}.

End Types.

(** [obj[key]] on an object used as a map. *)
Fixpoint lookup {V : Type} (key : string) (obj : list (string * V)) : option V :=
  match obj with
  | [] => None
  | (k, v) :: rest => if (k =? key)%string then Some v else lookup key rest
  end.

(** [obj[key]] where the values themselves may be [undefined]. *)
Definition property (key : string) (obj : list (string * option string))
  : option string :=
  match lookup key obj with
  | Some v => v
  | None => None
  end.

(* ================================================================== *)
(** * The contract caller *)
(* ================================================================== *)

Inductive Abi : Type := cnsInterface | resolverInterface.

(** [new Contract(url, abi, address)] of [./utils/contract]. *)
Record Contract : Type := {
  contract_url : string;
  contract_abi : Abi;
  contract_address : option string
}.

(** What [contract.fetchMethod(methodname, params)] does: it returns the
    decoded output, [None] when there is none, or it throws an error, of
    which the callers read the message. *)
Inductive fetched : Type :=
| Returned (v : option string)
| Thrown (message : string).

Definition FetchMethod : Type := Contract -> string -> list string -> fetched.

(** The two transport signatures that [callMethod] recognises. *)
Definition invalidJsonRpc : Js.regex := Js.Lit "Invalid JSON RPC response".
Definition rateExceeded : Js.regex :=
  Js.Lit "legacy access request rate exceeded".

(* ================================================================== *)
(** * Namehash of [eth-ens-namehash] *)
(* ================================================================== *)

Module EnsNamehash.
Section Hash.

(** Keccak-256 of a byte string, as lower-case hexadecimal. *)
Variable sha3 : string -> string.

(** [new Buffer(s, 'hex')] *)
Fixpoint unhex (s : string) : string :=
  match s with
  | String a (String b s') =>
      match Js.digit_value 16 a, Js.digit_value 16 b with
      | Some x, Some y =>
          String (ascii_of_nat (Z.to_nat (16 * x + y))) (unhex s')
      | _, _ => EmptyString
      end
  | _ => EmptyString
  end.

Definition zeroNode : string :=
  "0000000000000000000000000000000000000000000000000000000000000000".

(** Modelled from the spec: the library function [normalize], which the
    specification describes as lowercasing the name. *)
Definition normalize (name : string) : string := Js.toLowerCase name.

(** Modelled from the spec: the library function [hash], "computed by
    lowercasing and hashing labels from the rightmost label inward, seeded
    with a zero hash". *)
Definition hash (inputName : string) : string :=
  let name := normalize inputName in
  let node :=
    if (name =? "")%string then zeroNode
    else fold_right (fun label node => sha3 (unhex (node ++ sha3 label)))
                    zeroNode (Js.split "." name) in
  "0x" ++ node.

End Hash.
End EnsNamehash.

(* ================================================================== *)
(** * The CNS backend ([cns.ts]) *)
(* ================================================================== *)

Module Cns.

Record t : Type := {
  network : string;
  url : string;
  registryAddress : option string;
  cnsContract : option Contract
}.

Definition RegistryMap : list (string * string) :=
  [("mainnet", "0x608624cA9dacbf78B19232e15f67107Da0AeE715")].

(** The constructor, from the normalised source on. *)
Definition make (network url : string) (registry : option string)
  : result t :=
  if (network =? "")%string
  then Err (JsError "Unspecified network in Namicorn CNS configuration")
  else if (url =? "")%string
  then Err (JsError "Unspecified url in Namicorn CNS configuration")
  else
    let registryAddress :=
      if Js.truthy registry then registry else lookup network RegistryMap in
    Ok {| network := network;
          url := url;
          registryAddress := registryAddress;
          cnsContract :=
            if Js.truthy registryAddress
            then Some {| contract_url := url;
                         contract_abi := cnsInterface;
                         contract_address := registryAddress |}
            else None |}.

(** [/^.{1,}\.(crypto)$/] *)
Definition pattern : Js.regex :=
  Js.Cat (Js.Plus Js.Dot) (Js.Cat (Js.Chr ".") (Js.AltLits ["crypto"])).

Definition isSupportedDomain (domain : string) : bool :=
  (Js.indexOf "." domain >? 0) && Js.matches pattern domain.

(** Modelled from the spec: [ensureSupportedDomain] of the base class
    [./namingService], by which [namehash] "fails with UnsupportedDomain"
    on a domain that is not supported. *)
Definition ensureSupportedDomain (domain : string) : result unit :=
  if isSupportedDomain domain then Ok tt
  else Err (ResolutionError UnsupportedDomain [("domain", domain)]).

Section Methods.

Variable sha3 : string -> string.
Variable fetchMethod : FetchMethod.
Variable self : t.

Definition namehash (domain : string) : result string :=
  _ <- ensureSupportedDomain domain ;;
  Ok (EnsNamehash.hash sha3 domain).

(** The registry contract exists only when a registry address is known;
    calling a method of the missing contract raises inside the [try], and
    the [catch] finds no transport signature in that message. *)
Definition callMethod (contract : option Contract) (methodname : string)
  (params : list string) : result (option string) :=
  let attempt :=
    match contract with
    | Some c => fetchMethod c methodname params
    | None =>
        Thrown "TypeError: Cannot read property 'fetchMethod' of undefined"
    end in
  match attempt with
  | Returned v => Ok v
  | Thrown message =>
      if Js.search invalidJsonRpc message || Js.search rateExceeded message
      then Err (ResolutionError NamingServiceDown [("method", "CNS")])
      else Err (JsError message)
  end.

Definition getRecord (contract : Contract) (methodname : string)
  (params : list string) : result (option string) :=
  callMethod (Some contract) methodname params.

Definition resolverContract (resolver : option string) : Contract :=
  {| contract_url := url self;
     contract_abi := resolverInterface;
     contract_address := resolver |}.

Definition fetchAddress (resolver : option string) (tokenId coinName : string)
  : result (option string) :=
  let addrKey := "crypto." ++ Js.toUpperCase coinName ++ ".address" in
  getRecord (resolverContract resolver) "get" [addrKey; tokenId].

Definition getResolver (tokenId : string) : result (option string) :=
  callMethod (cnsContract self) "resolverOf" [tokenId].

Definition owner (tokenId : string) : result (option string) :=
  callMethod (cnsContract self) "ownerOf" [tokenId].

(** The contract passed in is not the one that is called. *)
Definition getTtl (contract : Contract) (methodname : string)
  (params : list string) : result (option string) :=
  callMethod (cnsContract self) methodname params.

(** [!a || a === NullAddress] *)
Definition unset (a : option string) : bool :=
  negb (Js.truthy a) ||
  match a with
  | Some s => (s =? NullAddress)%string
  | None => false
  end.

Definition getResolutionMeta (domain : string)
  : result (string * option string * Z * option string) :=
  tokenId <- namehash domain ;;
  owner <- owner tokenId ;;
  resolver <- getResolver tokenId ;;
  if unset resolver then
    if unset owner
    then Err (ResolutionError UnregisteredDomain [("domain", domain)])
    else Err (ResolutionError UnspecifiedResolver [("domain", domain)])
  else
    ttl <- getTtl (resolverContract resolver) "get" ["ttl"; tokenId] ;;
    Ok (tokenId, owner, Js.orZero (Js.parseInt ttl), resolver).

Definition resolve (domain : string) : result (option Types.NamicornResolution) :=
  match (_ <- ensureSupportedDomain domain ;; getResolutionMeta domain) with
  | Err err => if isResolutionError err then Ok None else Err err
  | Ok (tokenId, owner, ttl, resolver) =>
      address <- fetchAddress resolver tokenId "ETH" ;;
      Ok (Some {| Types.addresses := [("ETH", address)];
                  Types.meta := {| Types.owner := owner;
                                   Types.type := "cns";
                                   Types.ttl := ttl |} |})
  end.

Definition address (domain currencyTicker : string) : result string :=
  '(tokenId, _, _, resolver) <- getResolutionMeta domain ;;
  addr <- fetchAddress resolver tokenId currencyTicker ;;
  if negb (Js.truthy addr)
  then Err (ResolutionError UnspecifiedCurrency
              [("domain", domain); ("currencyTicker", currencyTicker)])
  else Ok (Js.str addr).

(** [!record || record === '0x' || record == NullAddress] *)
Definition wrongRecord (record : option string) : bool :=
  negb (Js.truthy record) ||
  match record with
  | Some s => (s =? "0x")%string || (s =? NullAddress)%string
  | None => false
  end.

Definition record (domain key : string) : result string :=
  tokenId <- namehash domain ;;
  resolver <- getResolver tokenId ;;
  record <- getRecord (resolverContract resolver) "get" [key; tokenId] ;;
  if wrongRecord record
  then Err (ResolutionError RecordNotFound
              [("recordName", key); ("domain", domain)])
  else Ok (Js.str record).

End Methods.
End Cns.

(* ================================================================== *)
(** * The abstract Ethereum naming service ([EthereumNamingService.ts]) *)
(* ================================================================== *)

Module EthereumNamingService.

(** Modelled from the spec: [isNullAddress] of [./types]; an address is
    null when it is "absent or the null address". *)
Definition isNullAddress (key : option string) : bool :=
  negb (Js.truthy key) ||
  match key with
  | Some s => (s =? NullAddress)%string
  | None => false
  end.

Section Methods.

(** The members that the class leaves abstract or inherits. *)
Variable name : string.
Variable registryAddress : option string.
Variable namehash : string -> result string.
Variable owner : string -> result (option string).
Variable getResolver : string -> result (option string).
Variable fetchMethod : FetchMethod.

Definition isSupportedNetwork : bool :=
  match registryAddress with
  | Some _ => true
  | None => false
  end.

Definition callMethod (contract : Contract) (methodname : string)
  (params : list string) : result (option string) :=
  match fetchMethod contract methodname params with
  | Returned v => Ok v
  | Thrown message =>
      if Js.search invalidJsonRpc message || Js.search rateExceeded message
      then Err (ResolutionError NamingServiceDown [("method", name)])
      else Err (JsError message)
  end.

(** It always throws; a normal return would carry nothing. *)
Definition throwOwnershipError (domain : string)
  (ownerPromise : option (result (option string))) : result unit :=
  owner <- match ownerPromise with
           | Some p => p
           | None => owner domain
           end ;;
  if isNullAddress owner
  then Err (ResolutionError UnregisteredDomain [("domain", domain)])
  else Err (ResolutionError UnspecifiedResolver [("domain", domain)]).

(** The owner is requested before the resolver is awaited; its outcome is
    looked at only when the resolver is missing. *)
Definition resolver (domain : string) : result (option string) :=
  nodeHash <- namehash domain ;;
  let ownerPromise := owner domain in
  resolverAddress <- getResolver nodeHash ;;
  _ <- (if negb (Js.truthy resolverAddress) || isNullAddress resolverAddress
        then throwOwnershipError domain (Some ownerPromise)
        else Ok tt) ;;
  Ok resolverAddress.

End Methods.
End EthereumNamingService.

(* ================================================================== *)
(** * The ZNS backend *)
(* ================================================================== *)

Module Zns.

Definition DefaultSource : string := "https://api.zilliqa.com/".
Definition registryAddress : string :=
  "zil1jcgu2wlx6xejqk9jw3aaankw6lsjzeunx2j0jz".

(** An entry of a contract-state map: a registry record, of which the code
    reads [arguments] as [[owner, resolver]], or a plain string, as the
    resolver's records are. *)
Inductive entry : Type :=
| Arguments (ownerAddress resolverAddress : string)
| Plain (value : string).

Definition statemap : Type := list (string * entry).

(** The RPC response: [result], when present, maps a field name to the
    requested part of that field. *)
Record response : Type := {
  result_ : option (list (string * statemap))
}.

(** A Zilliqa contract handle, of which only [address] is read. *)
Record ZContract : Type := { address : string }.

(** The nested structure that [_.set] builds from dotted keys.  It has
    plain objects and strings only, which is what lodash builds from keys
    whose steps are ordinary: no brackets or quotes, no step that reads as
    an array index (for which lodash makes an array, and which an object
    lists first), and no step that names a property every object inherits.
    Record keys such as [crypto.ZIL.address] and [ttl] are of this kind;
    the statements about this structure say so where it matters. *)
#[warnings="-register-all"] Inductive node : Type :=
| Leaf (value : entry)
| Obj (fields : list (string * node)).

Fixpoint upsert {V : Type} (key : string) (v : V) (obj : list (string * V))
  : list (string * V) :=
  match obj with
  | [] => [(key, v)]
  | (k, v0) :: rest =>
      if (k =? key)%string then (k, v) :: rest
      else (k, v0) :: upsert key v rest
  end.

(** [_.set(obj, path, value)] for a path already split at the dots: an
    intermediate value that is not an object is replaced by a fresh
    object (for ordinary steps; see [node]). *)
Fixpoint set_path (obj : list (string * node)) (path : list string)
  (value : entry) : list (string * node) :=
  match path with
  | [] => obj
  | [key] => upsert key (Leaf value) obj
  | key :: rest =>
      let child :=
        match lookup key obj with
        | Some (Obj fields) => fields
        | _ => []
        end in
      upsert key (Obj (set_path child rest value)) obj
  end.

(** The key is split at its dots, as lodash does for a key without
    brackets. *)
Definition set (obj : list (string * node)) (key : string) (value : entry)
  : list (string * node) :=
  set_path obj (Js.split "." key) value.

(** [_.transform(records, (result, value, key) => _.set(result, key, value), {})];
    nothing is visited when [records] is undefined. *)
Definition transform (records : option statemap) : list (string * node) :=
  match records with
  | Some m => fold_left (fun result kv => set result (fst kv) (snd kv)) m []
  | None => []
  end.

(** [child.address], kept when it is a string as the type [Resolution]
    declares. *)
Definition addressOf (child : node) : option string :=
  match child with
  | Obj fields =>
      match lookup "address" fields with
      | Some (Leaf (Plain s)) => Some s
      | _ => None
      end
  | Leaf _ => None
  end.

Definition index_keys (s : string) : list string :=
  map (fun i => NilEmpty.string_of_uint (Nat.to_uint i))
      (seq 0 (String.length s)).

(** [_.mapValues(resolution.crypto, 'address')]; over a string the keys are
    its indices.  The keys come in the order in which they were set, as
    the keys of an object do when none reads as an index. *)
Definition mapValues_address (crypto : option node)
  : list (string * option string) :=
  match crypto with
  | Some (Obj fields) => map (fun kv => (fst kv, addressOf (snd kv))) fields
  | Some (Leaf (Plain s)) => map (fun k => (k, None)) (index_keys s)
  | Some (Leaf (Arguments _ _)) => [("arguments", None)]
  | None => []
  end.

(** [resolution.ttl as string] *)
Definition ttlOf (resolution : list (string * node)) : option string :=
  match lookup "ttl" resolution with
  | Some (Leaf (Plain s)) => Some s
  | Some _ => Some "[object Object]"
  | None => None
  end.

(** [JSON.stringify(k)] of a string without control characters. *)
Fixpoint escape (s : string) : string :=
  match s with
  | EmptyString => EmptyString
  | String c s' =>
      if Ascii.eqb c "034" || Ascii.eqb c "\"
      then String "\" (String c (escape s'))
      else String c (escape s')
  end.

Definition stringify (k : string) : string :=
  String "034" (escape k ++ String "034" EmptyString).

Section Methods.

(** [./zns/namehash] *)
Variable namehash : string -> string.
(** [toChecksumAddress] and [toBech32Address] of [@zilliqa-js/crypto];
    both reject what is not an address. *)
Variable toChecksumAddress : string -> result string.
Variable toBech32Address : string -> result string.
(** [zilliqa.contracts.at] *)
Variable contractsAt : string -> ZContract.
(** [zilliqa.provider.send] *)
Variable send : string -> string -> string -> list string -> result response.

Definition registry : ZContract := contractsAt registryAddress.

Definition getContractField (contract : ZContract) (field : string)
  (keys : list string) : result (option statemap) :=
  response <- send "GetSmartContractSubState"
                   (Js.toLowerCase (Js.replace "0x" "" (address contract)))
                   field
                   (map stringify keys) ;;
  Ok (match result_ response with
      | Some result => lookup field result
      | None => None
      end).

Definition getContractMapValue (contract : ZContract) (field key : string)
  : result (option entry) :=
  fieldValue <- getContractField contract field [key] ;;
  match fieldValue with
  | Some m => Ok (lookup key m)
  | None => Err (TypeError key)
  end.

Definition getResolverRecordsStructure (resolverAddress : string)
  : result (list (string * node)) :=
  if (resolverAddress =? NullAddress)%string then Ok []
  else
    checksummed <- toChecksumAddress resolverAddress ;;
    let resolver := contractsAt checksummed in
    resolverRecords <- getContractField resolver "records" [] ;;
    Ok (transform resolverRecords).

(** [!registryRecord] *)
Definition falsy (e : option entry) : bool :=
  match e with
  | None => true
  | Some (Plain s) => (s =? "")%string
  | Some (Arguments _ _) => false
  end.

Definition resolve (domain : string)
  : result (option Types.NamicornResolution) :=
  registryRecord <- getContractMapValue registry "records" (namehash domain) ;;
  if falsy registryRecord then Ok None
  else
    match registryRecord with
    | Some (Arguments ownerAddress resolverAddress) =>
        resolution <- getResolverRecordsStructure resolverAddress ;;
        let addresses := mapValues_address (lookup "crypto" resolution) in
        ownerAddress <-
          (if Js.startsWith "0x" ownerAddress
           then toBech32Address ownerAddress
           else Ok ownerAddress) ;;
        Ok (Some {| Types.addresses := addresses;
                    Types.meta :=
                      {| Types.owner :=
                           if (ownerAddress =? "")%string then None
                           else Some ownerAddress;
                         Types.type := "zns";
                         Types.ttl :=
                           Js.orZero (Js.parseInt (ttlOf resolution)) |} |})
    | _ =>
        (* [registryRecord.arguments] is undefined and cannot be
           destructured *)
        Err (JsError "TypeError: undefined is not iterable")
    end.

(** [/^.{1,}\.(zil)$/] *)
Definition pattern : Js.regex :=
  Js.Cat (Js.Plus Js.Dot) (Js.Cat (Js.Chr ".") (Js.AltLits ["zil"])).

Definition isSupportedDomain (domain : string) : bool :=
  (Js.indexOf "." domain >? 0) && Js.matches pattern domain.

End Methods.
End Zns.

(* ================================================================== *)
(** * The check that the backends share *)
(* ================================================================== *)

(** The CNS and the ZNS backend decide support in the same way, each for
    its own suffix.  [Suffix] is that check for a list of suffixes.  The
    class [Ens], which is not among the sources, enters the statements
    below only as a backend that decides support by a check of this
    shape. *)
Module Suffix.
Section Suffixes.

Variable tlds : list string.

(** [/^.{1,}\.(t1|t2|...)$/] *)
Definition pattern : Js.regex :=
  Js.Cat (Js.Plus Js.Dot) (Js.Cat (Js.Chr ".") (Js.AltLits tlds)).

Definition isSupportedDomain (domain : string) : bool :=
  (Js.indexOf "." domain >? 0) && Js.matches pattern domain.

End Suffixes.
End Suffix.

(* ================================================================== *)
(** * The backend interface ([interfaces/NamingService.ts]) *)
(* ================================================================== *)

Module NamingService.

(** The two members that the dispatcher calls on a backend, whichever
    class it is. *)
Record t : Type := {
  isSupportedDomain : string -> bool;
  resolve : string -> result (option Types.NamicornResolution)
}.

End NamingService.

(** ** The backends as the dispatcher sees them *)

Definition cnsMethod (sha3 : string -> string) (fetchMethod : FetchMethod)
  (cns : Cns.t) : NamingService.t :=
  {| NamingService.isSupportedDomain := Cns.isSupportedDomain;
     NamingService.resolve := Cns.resolve sha3 fetchMethod cns |}.

Definition znsMethod (namehash : string -> string)
  (toChecksumAddress toBech32Address : string -> result string)
  (contractsAt : string -> Zns.ZContract)
  (send : string -> string -> string -> list string -> result Zns.response)
  : NamingService.t :=
  {| NamingService.isSupportedDomain := Zns.isSupportedDomain;
     NamingService.resolve :=
       Zns.resolve namehash toChecksumAddress toBech32Address contractsAt
                   send |}.

(* ================================================================== *)
(** * The dispatcher ([namicorn.ts]) *)
(* ================================================================== *)

Module Namicorn.

Definition DefaultUrl : string := "https://unstoppabledomains.com/api/v1".

Definition UNCLAIMED_DOMAIN_RESPONSE : Types.NamicornResolution :=
  {| Types.addresses := [];
     Types.meta := {| Types.owner := None;
                      Types.type := "";
                      Types.ttl := 0 |} |}.

(** The instance; the constructor fills [ens] and [zns] only when
    [blockchain] is on and the backend is not switched off.  The class of
    the [ens] member is not among the sources: the slot holds whatever
    Ethereum-family backend is registered. *)
Record t : Type := {
  api : string;
  blockchain : bool;
  ens : option NamingService.t;
  zns : option NamingService.t
}.

(** [method && method.isSupportedDomain(domain)] *)
Definition supports (domain : string) (method : option NamingService.t)
  : bool :=
  match method with
  | Some m => NamingService.isSupportedDomain m domain
  | None => false
  end.

Section Methods.

(** [myFetch(url)] followed by [response.json()]: the HTTP fallback. *)
Variable myFetch : string -> result (option Types.NamicornResolution).
Variable self : t.

Definition getNamingMethod (domain : string) : option NamingService.t :=
  let methods := [ens self; zns self] in
  match find (supports domain) methods with
  | Some method => method
  | None => None
  end.

Definition resolveUsingBlockchain (domain : string)
  : result Types.NamicornResolution :=
  match getNamingMethod domain with
  | None => Err (ResolutionError UnsupportedDomain [("domain", domain)])
  | Some method =>
      result <- NamingService.resolve method domain ;;
      Ok (match result with
          | Some r => r
          | None => UNCLAIMED_DOMAIN_RESPONSE
          end)
  end.

(** The fallback may answer [null]; the blockchain path never does. *)
Definition resolve (domain : string)
  : result (option Types.NamicornResolution) :=
  if blockchain self
  then r <- resolveUsingBlockchain domain ;; Ok (Some r)
  else myFetch (api self ++ "/" ++ domain).

Definition addressOrThrow (domain currencyTicker : string)
  : result (option string) :=
  match resolve domain with
  | Err err => if isResolutionError err then Ok None else Err err
  | Ok data =>
      match data with
      | Some d =>
          if negb (Js.truthy (Types.owner (Types.meta d)))
          then Err (ResolutionError UnregisteredDomain [("domain", domain)])
          else if negb (Js.truthy (property (Js.toUpperCase currencyTicker)
                                            (Types.addresses d)))
          then Err (ResolutionError UnregisteredCurrency
                      [("domain", domain);
                       ("currencyTicker", currencyTicker)])
          else Ok (property (Js.toUpperCase currencyTicker)
                            (Types.addresses d))
      | None => Ok None
      end
  end.

Definition address (domain currencyTicker : string)
  : result (option string) :=
  match addressOrThrow domain currencyTicker with
  | Err error => if isResolutionError error then Ok None else Err error
  | Ok a => Ok a
  end.

Definition isSupportedDomain (domain : string) : bool :=
  supports domain (zns self) || supports domain (ens self).

End Methods.
End Namicorn.

(* ================================================================== *)
(** * Chains and instances used in the closed examples *)
(* ================================================================== *)

Module Scenario.

(** A stand-in for the digests (Keccak-256, and the hash of
    [./zns/namehash]).  The chains below answer by method name and record
    key, never by token, so no example depends on it. *)
Definition digest (s : string) : string := s.

Definition someOwner : string := "0x8aaD44321A86b170879d7A244c1e8d360c99DdA8".
Definition someResolver : string :=
  "0xb66DcE2DA6afAAa98F2013446dBCB0f4B0ab2842".
Definition someAddress : string :=
  "0xaBcD44321A86b170879d7A244c1e8d360c99DdA8".

(** The CNS backend on mainnet with the default registry. *)
Definition mainnet : Cns.t :=
  {| Cns.network := "mainnet";
     Cns.url := "https://mainnet.infura.io";
     Cns.registryAddress := Some "0x608624cA9dacbf78B19232e15f67107Da0AeE715";
     Cns.cnsContract :=
       Some {| contract_url := "https://mainnet.infura.io";
               contract_abi := cnsInterface;
               contract_address :=
                 Some "0x608624cA9dacbf78B19232e15f67107Da0AeE715" |} |}.

(** Every token has an owner and the null address as its resolver. *)
Definition ownedWithoutResolver : FetchMethod :=
  fun _ methodname _ =>
    if (methodname =? "ownerOf")%string then Returned (Some someOwner)
    else if (methodname =? "resolverOf")%string then Returned (Some NullAddress)
    else Returned None.

(** No token has an owner or a resolver. *)
Definition nothingRegistered : FetchMethod :=
  fun _ _ _ => Returned None.

(** The endpoint answers nothing that parses. *)
Definition endpointDown : FetchMethod :=
  fun _ _ _ => Thrown "Error: Invalid JSON RPC response: undefined".

(** Every token is owned and resolved; the resolver holds
    [crypto.ETH.address] and [ttl] and nothing else. *)
Definition known : FetchMethod :=
  fun _ methodname params =>
    if (methodname =? "ownerOf")%string then Returned (Some someOwner)
    else if (methodname =? "resolverOf")%string
    then Returned (Some someResolver)
    else match params with
         | key :: _ =>
             if (key =? "crypto.ETH.address")%string
             then Returned (Some someAddress)
             else if (key =? "ttl")%string then Returned (Some "120")
             else Returned (Some "")
         | [] => Returned None
         end.

(** Zilliqa: handles keep the address they are made from, and the address
    conversions accept everything. *)
Definition contractsAt (a : string) : Zns.ZContract := {| Zns.address := a |}.
Definition convert (a : string) : result string := Ok a.

(** The registry's records are returned and hold no entry. *)
Definition emptyRecords
  : string -> string -> string -> list string -> result Zns.response :=
  fun _ _ _ _ => Ok {| Zns.result_ := Some [("records", [])] |}.

(** The response carries no result. *)
Definition noResult
  : string -> string -> string -> list string -> result Zns.response :=
  fun _ _ _ _ => Ok {| Zns.result_ := None |}.

(** The transport fails with the message that the Ethereum callers
    recognise. *)
Definition transportFails
  : string -> string -> string -> list string -> result Zns.response :=
  fun _ _ _ _ => Err (JsError "Error: Invalid JSON RPC response: undefined").

Definition noFetch (_ : string) : result (option Types.NamicornResolution) :=
  Err (JsError "FetchError").

Definition zns (send : string -> string -> string -> list string
                       -> result Zns.response) : NamingService.t :=
  znsMethod digest convert convert contractsAt send.

(** A dispatcher over a CNS chain and a Zilliqa node. *)
Definition namicorn (fetchMethod : FetchMethod)
  (send : string -> string -> string -> list string -> result Zns.response)
  : Namicorn.t :=
  {| Namicorn.api := Namicorn.DefaultUrl;
     Namicorn.blockchain := true;
     Namicorn.ens := Some (cnsMethod digest fetchMethod mainnet);
     Namicorn.zns := Some (zns send) |}.

End Scenario.

(* ================================================================== *)
(** * Vocabulary of the statements *)
(* ================================================================== *)

(** The language of a regular expression: what the matcher of [Js] is
    meant to decide. *)
Inductive lang : Js.regex -> string -> Prop :=
| LEps : lang Js.Eps ""
| LChr (c : ascii) : lang (Js.Chr c) (String c "")
| LDot (c : ascii) :
    Js.line_terminator c = false -> lang Js.Dot (String c "")
| LCat (r1 r2 : Js.regex) (s1 s2 : string) :
    lang r1 s1 -> lang r2 s2 -> lang (Js.Cat r1 r2) (s1 ++ s2)
| LAltL (r1 r2 : Js.regex) (s : string) :
    lang r1 s -> lang (Js.Alt r1 r2) s
| LAltR (r1 r2 : Js.regex) (s : string) :
    lang r2 s -> lang (Js.Alt r1 r2) s
| LStar0 (r : Js.regex) : lang (Js.Star r) ""
| LStarS (r : Js.regex) (s1 s2 : string) :
    lang r s1 -> lang (Js.Star r) s2 -> lang (Js.Star r) (s1 ++ s2).

(** Every character of [s] passes [f]. *)
Fixpoint all_chars (f : ascii -> bool) (s : string) : bool :=
  match s with
  | EmptyString => true
  | String c s' => f c && all_chars f s'
  end.

Definition not_dot (c : ascii) : bool := negb (Ascii.eqb c ".").
Definition not_terminator (c : ascii) : bool := negb (Js.line_terminator c).

(** No dot occurs in [s]. *)
Definition dotless (s : string) : bool := all_chars not_dot s.

(** [t] occurs in [s]. *)
Definition contains (t s : string) : Prop :=
  exists before rest, s = before ++ t ++ rest.

(** What the specification calls "absent or the null address". *)
Definition absentOrNull (a : option string) : Prop :=
  a = None \/ a = Some "" \/ a = Some NullAddress.

(** The value that [record] rejects: empty, ["0x"], or the null address. *)
Definition emptyRecord (v : option string) : Prop :=
  v = None \/ v = Some "" \/ v = Some "0x" \/ v = Some NullAddress.

(** A promise that rejects with a [ResolutionError] of the given code. *)
Definition failsWith {A : Type} (r : result A) (code : ResolutionErrorCode)
  : Prop :=
  exists params, r = Err (ResolutionError code params).

(** The syntax that a backend over the suffixes [tlds] accepts: the first
    dot is not at the start, and the whole is a non-empty run without line
    terminators, a dot, and one of the suffixes. *)
Definition wellFormed (tlds : list string) (domain : string) : Prop :=
  Js.indexOf "." domain > 0 /\
  exists p t, In t tlds /\ domain = p ++ "." ++ t /\ p <> "" /\
              all_chars not_terminator p = true.

(** The backends that are registered, in the order of
    [getNamingMethod]. *)
Definition registered (n : Namicorn.t) : list NamingService.t :=
  flat_map (fun method => match method with
                          | Some m => [m]
                          | None => []
                          end)
           [Namicorn.ens n; Namicorn.zns n].

(** The registered backends that support [domain]. *)
Definition matching (n : Namicorn.t) (domain : string)
  : list NamingService.t :=
  filter (fun m => NamingService.isSupportedDomain m domain) (registered n).

(** The backend of a slot, when there is one, decides support as [f]. *)
Definition decidesBy (f : string -> bool) (slot : option NamingService.t)
  : Prop :=
  match slot with
  | Some m => forall d, NamingService.isSupportedDomain m d = f d
  | None => True
  end.

(* ================================================================== *)
(** * Configuration ([types.ts]) *)
(* ================================================================== *)

Module Source.

(** [network?: string | number] *)
Inductive Network : Type :=
| Name (name : string)
| Id (id : Z).

Record SourceDefinition : Type := {
  url : option string;
  network : option Network;
  registry : option string
}.

(** [NamingServiceSource]: a URL, a flag, or a definition. *)
Inductive NamingServiceSource : Type :=
| OfBoolean (b : bool)
| OfString (s : string)
| OfObject (d : SourceDefinition).

(** [Blockchain]: a flag, or the sources of the two backends, each of
    which may be left out. *)
Inductive Blockchain : Type :=
| Flag (b : bool)
| Backends (ens zns : option NamingServiceSource).

(** The truth value of a source. *)
Definition truthy (s : NamingServiceSource) : bool :=
  match s with
  | OfBoolean b => b
  | OfString s => negb (s =? "")%string
  | OfObject _ => true
  end.

(** The truth value of a network: a name that is not empty, or a number
    that is not zero. *)
Definition truthyNetwork (n : option Network) : bool :=
  match n with
  | Some (Name s) => negb (s =? "")%string
  | Some (Id z) => negb (z =? 0)
  | None => false
  end.

End Source.

(* ================================================================== *)
(** * Source normalisation ([EthereumNamingService.ts]) *)
(* ================================================================== *)

Module NormalizeSource.
Import Source.

Definition NetworkIdMap : list (Z * string) :=
  [(1, "mainnet"); (3, "ropsten"); (4, "rinkeby"); (5, "goerli");
   (42, "kovan")].

Definition UrlMap : list (string * string) :=
  [("mainnet", "https://mainnet.infura.io");
   ("ropsten", "https://ropsten.infura.io");
   ("kovan", "https://kovan.infura.io");
   ("rinkeby", "https://rinkeby.infura.io");
   ("goerli", "https://goerli.infura.io")].

(** [NetworkIdMap[id]] *)
Fixpoint networkOfId (id : Z) (m : list (Z * string)) : option string :=
  match m with
  | [] => None
  | (k, v) :: rest => if k =? id then Some v else networkOfId id rest
  end.

(** [invert] of [./utils]: the values become the keys, in the order of the
    keys they had. *)
Definition invert (m : list (Z * string)) : list (string * Z) :=
  map (fun kv => (snd kv, fst kv)) m.

Definition NetworkNameMap : list (string * Z) := invert NetworkIdMap.

(** [NetworkNameMap.hasOwnProperty(key)] *)
Definition hasOwnProperty (key : string) : bool :=
  existsb (fun kv => (fst kv =? key)%string) NetworkNameMap.

(** The first network name, in the order of the map, that occurs in the
    URL. *)
Definition networkFromUrl (url : string) : option string :=
  find (fun key => Js.indexOf key url >=? 0) (map fst NetworkNameMap).

Definition infura (network : string) : string :=
  "https://" ++ network ++ ".infura.io".

(** The name that a truthy network of the object case prints as; by then a
    number has been replaced. *)
Definition nameOf (n : option Network) : string :=
  match n with
  | Some (Name s) => s
  | _ => EmptyString
  end.

Definition normalizeSource (source : NamingServiceSource) : SourceDefinition :=
  match source with
  | OfBoolean _ =>
      {| url := lookup "mainnet" UrlMap;
         network :=
           option_map Name (networkFromUrl (Js.str (lookup "mainnet" UrlMap)));
         registry := None |}
  | OfString s =>
      {| url := Some s;
         network := option_map Name (networkFromUrl s);
         registry := None |}
  | OfObject d =>
      (* a numeric network becomes its name, or undefined *)
      let network1 :=
        match network d with
        | Some (Id id) => option_map Name (networkOfId id NetworkIdMap)
        | other => other
        end in
      (* a registry brings the defaults of mainnet with it *)
      let network2 :=
        if Js.truthy (registry d)
        then (if truthyNetwork network1 then network1
              else Some (Name "mainnet"))
        else network1 in
      let url2 :=
        if Js.truthy (registry d)
        then (if Js.truthy (url d) then url d
              else Some (infura (nameOf network2)))
        else url d in
      (* a known network brings its URL *)
      let url3 :=
        if truthyNetwork network2 && negb (Js.truthy url2)
           && hasOwnProperty (nameOf network2)
        then Some (infura (nameOf network2))
        else url2 in
      (* a URL names its network *)
      let network3 :=
        if Js.truthy url3 && negb (truthyNetwork network2)
        then option_map Name (networkFromUrl (Js.str url3))
        else network2 in
      {| url := url3; network := network3; registry := registry d |}
  end.

End NormalizeSource.

(* ================================================================== *)
(** * The dispatcher's constructor ([namicorn.ts]) *)
(* ================================================================== *)

Module NamicornConstructor.
Import Source.
Section Construct.

(** [new Ens(source)] and [new Zns(source)]; either may throw. *)
Variable newEns : NamingServiceSource -> result NamingService.t.
Variable newZns : NamingServiceSource -> result NamingService.t.

(** [if (source) this.backend = new Backend(source)], where a source left
    out has become [true]. *)
Definition build (make : NamingServiceSource -> result NamingService.t)
  (source : option NamingServiceSource) : result (option NamingService.t) :=
  let source :=
    match source with
    | Some s => s
    | None => OfBoolean true
    end in
  if truthy source
  then m <- make source ;; Ok (Some m)
  else Ok None.

(** [constructor({blockchain = true, api = DefaultUrl} = {})] *)
Definition construct (blockchain : option Blockchain) (api : option string)
  : result Namicorn.t :=
  let api :=
    match api with
    | Some a => a
    | None => Namicorn.DefaultUrl
    end in
  let blockchain :=
    match blockchain with
    | Some b => b
    | None => Flag true
    end in
  match blockchain with
  | Flag false =>
      Ok {| Namicorn.api := api;
            Namicorn.blockchain := false;
            Namicorn.ens := None;
            Namicorn.zns := None |}
  | _ =>
      let '(ens, zns) :=
        match blockchain with
        | Backends e z => (e, z)
        | Flag _ => (None, None)
        end in
      ens <- build newEns ens ;;
      zns <- build newZns zns ;;
      Ok {| Namicorn.api := api;
            Namicorn.blockchain := true;
            Namicorn.ens := ens;
            Namicorn.zns := zns |}
  end.

End Construct.
End NamicornConstructor.

(* ================================================================== *)
(** * Further vocabulary *)
(* ================================================================== *)

(** [obj.k1.k2...]: the node at a path of the structure that [_.set]
    builds. *)
Fixpoint get_path (obj : list (string * Zns.node)) (path : list string)
  : option Zns.node :=
  match path with
  | [] => None
  | [key] => lookup key obj
  | key :: rest =>
      match lookup key obj with
      | Some (Zns.Obj fields) => get_path fields rest
      | _ => None
      end
  end.

(** Below an inner key [_.set] works on the object that is there, or on a
    fresh one. *)
Definition childOf (key : string) (obj : list (string * Zns.node))
  : list (string * Zns.node) :=
  match lookup key obj with
  | Some (Zns.Obj fields) => fields
  | _ => []
  end.

(** The structure that the flat records of a resolver with the given
    addresses unfold to. *)
Definition cryptoObject (addresses : list (string * string))
  : list (string * Zns.node) :=
  match addresses with
  | [] => []
  | _ =>
      [("crypto",
        Zns.Obj (map (fun ta =>
                        (fst ta,
                         Zns.Obj [("address", Zns.Leaf (Zns.Plain (snd ta)))]))
                     addresses))]
  end.

(** A ticker as currencies have them: upper-case letters and digits, the
    first a letter.  Such a ticker has no dot, bracket or quote, does not
    read as an array index, and names nothing that objects inherit. *)
Definition upperLetter (c : ascii) : bool :=
  let n := nat_of_ascii c in ((65 <=? n) && (n <=? 90))%nat.

Definition upperOrDigit (c : ascii) : bool :=
  let n := nat_of_ascii c in
  (((65 <=? n) && (n <=? 90)) || ((48 <=? n) && (n <=? 57)))%nat.

Definition tickerLike (s : string) : bool :=
  match s with
  | EmptyString => false
  | String c _ => upperLetter c && all_chars upperOrDigit s
  end.

(** The flat records of a resolver that holds the given addresses, by
    ticker, and a ttl. *)
Definition flatRecords (addresses : list (string * string)) (ttl : string)
  : Zns.statemap :=
  app (map (fun ta => ("crypto." ++ fst ta ++ ".address", Zns.Plain (snd ta)))
           addresses)
      [("ttl", Zns.Plain ttl)].

(** ** Further chains for the closed examples *)

Module Scenario2.

(** The registry answers as in [Scenario.known]; every call of a resolver
    contract fails as a dead endpoint does. *)
Definition resolverDown : FetchMethod :=
  fun contract methodname params =>
    match contract_abi contract with
    | cnsInterface => Scenario.known contract methodname params
    | resolverInterface =>
        Thrown "Error: Invalid JSON RPC response: undefined"
    end.

Definition zilOwner : string := "zil1qqlrehlvat5kalsq07qedgd8gqvax4ra5cf2gw".
Definition zilResolver : string := "0xb17c35e557a8c13a730696c92d716a58421e36ca".

(** A Zilliqa node on which every domain is registered to [zilOwner] with
    the resolver [resolver], and every resolver holds [records]. *)
Definition node (resolver : string) (records : Zns.statemap)
  : string -> string -> string -> list string -> result Zns.response :=
  fun _ address _ keys =>
    match keys with
    | [] => Ok {| Zns.result_ := Some [("records", records)] |}
    | key :: _ =>
        Ok {| Zns.result_ :=
                Some [("records",
                       [(Scenario.digest "brad.zil",
                         Zns.Arguments zilOwner resolver)])] |}
    end.

End Scenario2.

(* ================================================================== *)
(** * Facts about strings *)
(* ================================================================== *)

Module StringFacts.

Lemma append_nil_r (s : string) : s ++ "" = s.
Proof. induction s as [|c s IH]; simpl; [reflexivity | now rewrite IH]. Qed.

Lemma append_assoc (a b c : string) : (a ++ b) ++ c = a ++ (b ++ c).
Proof. induction a as [|x a IH]; simpl; [reflexivity | now rewrite IH]. Qed.

Lemma append_eq_nil (a b : string) : a ++ b = "" -> a = "" /\ b = "".
Proof. destruct a; simpl; intros H; [now split | discriminate]. Qed.

Lemma append_cancel_l (a b c : string) : a ++ b = a ++ c -> b = c.
Proof.
  induction a as [|x a IH]; simpl; intros H; [exact H |].
  injection H as H. now apply IH.
Qed.

Lemma length_append (a b : string) :
  String.length (a ++ b) = (String.length a + String.length b)%nat.
Proof. induction a as [|x a IH]; simpl; [reflexivity | now rewrite IH]. Qed.

Lemma all_chars_append f a b :
  all_chars f (a ++ b) = all_chars f a && all_chars f b.
Proof.
  induction a as [|x a IH]; simpl; [reflexivity |].
  now rewrite IH, andb_assoc.
Qed.

Lemma dotless_no_dot (t a b : string) :
  dotless t = true -> t <> a ++ "." ++ b.
Proof.
  unfold dotless. intros H E. subst t.
  rewrite all_chars_append in H. simpl in H.
  apply andb_prop in H as [_ H]. discriminate.
Qed.

(** A string ends in a dot and a dotless suffix in one way only. *)
Lemma suffix_unique (p q t u : string) :
  dotless t = true -> dotless u = true ->
  p ++ "." ++ t = q ++ "." ++ u -> p = q /\ t = u.
Proof.
  intros Ht Hu. revert q.
  induction p as [|c p IH]; intros [|d q]; simpl; intros E.
  - injection E as E. now split.
  - injection E as _ E. exfalso. eapply dotless_no_dot; [exact Ht | exact E].
  - injection E as _ E. exfalso. eapply dotless_no_dot; [exact Hu |].
    symmetry. exact E.
  - injection E as Ec E. destruct (IH q E) as [-> ->]. now subst.
Qed.

Lemma prefix_append (p s : string) :
  String.prefix p s = true <-> exists r, s = p ++ r.
Proof.
  revert s. induction p as [|c p IH]; intros s.
  - destruct s; simpl; split; intros _; eauto.
  - destruct s as [|d s]; simpl.
    + split; [discriminate | intros [r E]; discriminate].
    + destruct (ascii_dec c d) as [->|N].
      * rewrite IH. split; intros [r E]; exists r.
        -- now rewrite E.
        -- now injection E.
      * split; [discriminate |]. intros [r E]. injection E as E _.
        now elim N.
Qed.

Lemma indexOfFrom_dot_cons (c : ascii) (s : string) (i : Z) :
  Js.indexOfFrom "." (String c s) i =
  if Ascii.eqb c "." then i else Js.indexOfFrom "." s (i + 1).
Proof.
  cbn [Js.indexOfFrom String.prefix].
  destruct (ascii_dec "." c) as [<-|N].
  - now destruct s.
  - apply not_eq_sym, Ascii.eqb_neq in N. now rewrite N.
Qed.

Lemma indexOfFrom_dotless (s : string) (i : Z) :
  dotless s = true -> Js.indexOfFrom "." s i = -1.
Proof.
  unfold dotless. revert i.
  induction s as [|c s IH]; intros i H; [reflexivity|].
  rewrite indexOfFrom_dot_cons. simpl in H.
  apply andb_prop in H as [Hc H]. unfold not_dot in Hc.
  apply negb_true_iff in Hc. rewrite Hc. now apply IH.
Qed.

Lemma indexOfFrom_dotted (s : string) (i : Z) :
  dotless s = false -> i <= Js.indexOfFrom "." s i.
Proof.
  unfold dotless. revert i.
  induction s as [|c s IH]; intros i H; [discriminate|].
  rewrite indexOfFrom_dot_cons. simpl in H. unfold not_dot at 1 in H.
  destruct (Ascii.eqb c "."); simpl in H; [lia|].
  specialize (IH (i + 1) H). lia.
Qed.

(** [indexOf "." s] is positive exactly when [s] has a dot and does not
    begin with it. *)
Lemma indexOf_positive (s : string) :
  Js.indexOf "." s > 0 <->
  exists c rest, s = String c rest /\ c <> "."%char /\ dotless rest = false.
Proof.
  unfold Js.indexOf. destruct s as [|c s].
  - simpl. split; [lia | intros (c & r & E & _); discriminate].
  - rewrite indexOfFrom_dot_cons.
    destruct (Ascii.eqb_spec c ".") as [->|N].
    + split; [lia|]. intros (c & r & E & N & _).
      injection E as <- _. now elim N.
    + split.
      * intros H. exists c, s. repeat split; [exact N|].
        destruct (dotless s) eqn:D; [|reflexivity].
        rewrite indexOfFrom_dotless in H by exact D. lia.
      * intros (c' & r & E & _ & D). injection E as <- <-.
        pose proof (indexOfFrom_dotted s (0 + 1) D). lia.
Qed.

End StringFacts.

(* ================================================================== *)
(** * Facts about regular expressions *)
(* ================================================================== *)

Module RegexFacts.
Import Js StringFacts.

Lemma lang_Cat_inv (r1 r2 : regex) (s : string) :
  lang (Cat r1 r2) s ->
  exists s1 s2, s = s1 ++ s2 /\ lang r1 s1 /\ lang r2 s2.
Proof. inversion 1; subst; eauto. Qed.

Lemma lang_Chr_inv (c : ascii) (s : string) :
  lang (Chr c) s -> s = String c "".
Proof. now inversion 1. Qed.

Lemma lang_Dot_inv (s : string) :
  lang Dot s -> exists c, s = String c "" /\ line_terminator c = false.
Proof. inversion 1; subst; eauto. Qed.

Lemma lang_nullable (r : regex) : nullable r = true <-> lang r "".
Proof.
  induction r as [| | c | | r1 IH1 r2 IH2 | r1 IH1 r2 IH2 | r IH]; simpl.
  - split; [discriminate | inversion 1].
  - split; [constructor | reflexivity].
  - split; [discriminate | inversion 1].
  - split; [discriminate | inversion 1].
  - rewrite andb_true_iff, IH1, IH2. split.
    + intros [H1 H2]. change "" with ("" ++ ""). now constructor.
    + intros H. apply lang_Cat_inv in H as (s1 & s2 & E & H1 & H2).
      symmetry in E. apply append_eq_nil in E as [-> ->]. now split.
  - rewrite orb_true_iff, IH1, IH2. split.
    + intros [H|H]; [now apply LAltL | now apply LAltR].
    + inversion 1; subst; [now left | now right].
  - split; [constructor | reflexivity].
Qed.

(** A word of [r] that begins with [c] leaves a word of the derivative. *)
Lemma lang_deriv_of (r : regex) (w : string) :
  lang r w -> forall c s, w = String c s -> lang (deriv c r) s.
Proof.
  induction 1 as [ | a | a Ha | r1 r2 s1 s2 H1 IH1 H2 IH2
                 | r1 r2 w H IH | r1 r2 w H IH
                 | r | r s1 s2 H1 IH1 H2 IH2 ];
    intros c s E; simpl.
  - discriminate.
  - injection E as -> <-. rewrite Ascii.eqb_refl. constructor.
  - injection E as -> <-. rewrite Ha. constructor.
  - destruct s1 as [|d s1]; simpl in E.
    + subst s2. apply lang_nullable in H1. rewrite H1.
      apply LAltR. now apply IH2.
    + injection E as -> <-.
      assert (lang (Cat (deriv c r1) r2) (s1 ++ s2)) as K
          by (constructor; [now apply IH1 | exact H2]).
      destruct (nullable r1); [now apply LAltL | exact K].
  - apply LAltL. now apply IH.
  - apply LAltR. now apply IH.
  - discriminate.
  - destruct s1 as [|d s1]; simpl in E.
    + now apply IH2.
    + injection E as -> <-. constructor; [now apply IH1 | exact H2].
Qed.

Lemma lang_of_deriv (r : regex) :
  forall c s, lang (deriv c r) s -> lang r (String c s).
Proof.
  induction r as [| | a | | r1 IH1 r2 IH2 | r1 IH1 r2 IH2 | r IH];
    intros c s; simpl.
  - inversion 1.
  - inversion 1.
  - destruct (Ascii.eqb_spec a c) as [->|N]; inversion 1; subst. constructor.
  - destruct (line_terminator c) eqn:L; inversion 1; subst. now constructor.
  - assert (forall w, lang (Cat (deriv c r1) r2) w ->
                      lang (Cat r1 r2) (String c w)) as K.
    { intros w H. apply lang_Cat_inv in H as (s1 & s2 & -> & H1 & H2).
      change (String c (s1 ++ s2)) with (String c s1 ++ s2).
      constructor; [now apply IH1 | exact H2]. }
    destruct (nullable r1) eqn:N; [|now apply K].
    inversion 1; subst; [now apply K|].
    change (String c s) with ("" ++ String c s).
    constructor; [now apply lang_nullable | now apply IH2].
  - inversion 1; subst; [apply LAltL; now apply IH1 | apply LAltR; now apply IH2].
  - intros H. apply lang_Cat_inv in H as (s1 & s2 & -> & H1 & H2).
    change (String c (s1 ++ s2)) with (String c s1 ++ s2).
    apply LStarS; [now apply IH | exact H2].
Qed.

(** The matcher decides the language. *)
Lemma matches_lang (r : regex) (s : string) :
  matches r s = true <-> lang r s.
Proof.
  revert r. induction s as [|c s IH]; intros r; simpl.
  - apply lang_nullable.
  - rewrite IH. split; [apply lang_of_deriv |].
    intros H. now apply (lang_deriv_of _ _ H).
Qed.

Lemma matches_prefix_lang (r : regex) (s : string) :
  matches_prefix r s = true <-> exists p rest, s = p ++ rest /\ lang r p.
Proof.
  revert r. induction s as [|c s IH]; intros r; simpl.
  - split.
    + intros H. rewrite orb_false_r in H. apply lang_nullable in H.
      now exists "", "".
    + intros (p & rest & E & H). symmetry in E.
      apply append_eq_nil in E as [-> _]. rewrite orb_false_r.
      now apply lang_nullable.
  - rewrite orb_true_iff, IH. split.
    + intros [H | (p & rest & -> & H)].
      * apply lang_nullable in H. now exists "", (String c s).
      * exists (String c p), rest. split; [reflexivity|].
        now apply lang_of_deriv.
    + intros ([|d p] & rest & E & H).
      * left. now apply lang_nullable.
      * right. simpl in E. injection E as <- ->. exists p, rest.
        split; [reflexivity|]. now apply (lang_deriv_of _ _ H).
Qed.

Lemma search_lang (r : regex) (s : string) :
  search r s = true <->
  exists before p rest, s = before ++ p ++ rest /\ lang r p.
Proof.
  induction s as [|c s IH]; simpl.
  - split.
    + intros H. rewrite !orb_false_r in H. apply lang_nullable in H.
      now exists "", "", "".
    + intros (b & p & rest & E & H). symmetry in E.
      apply append_eq_nil in E as [-> E].
      apply append_eq_nil in E as [-> _]. rewrite !orb_false_r.
      now apply lang_nullable.
  - rewrite orb_true_iff, IH.
    change (nullable r || matches_prefix (deriv c r) s)
      with (matches_prefix r (String c s)).
    rewrite matches_prefix_lang. split.
    + intros [(p & rest & E & H) | (b & p & rest & -> & H)].
      * now exists "", p, rest.
      * now exists (String c b), p, rest.
    + intros ([|d b] & p & rest & E & H); simpl in E.
      * left. now exists p, rest.
      * right. injection E as <- ->. now exists b, p, rest.
Qed.

(** ** The languages of the expressions that the sources use *)

Lemma lang_Lit (t s : string) : lang (Lit t) s <-> s = t.
Proof.
  revert s. induction t as [|c t IH]; intros s; simpl.
  - split; [now inversion 1 | intros ->; constructor].
  - split.
    + intros H. apply lang_Cat_inv in H as (s1 & s2 & -> & H1 & H2).
      apply lang_Chr_inv in H1 as ->. apply IH in H2. now subst.
    + intros ->. change (String c t) with (String c "" ++ t).
      constructor; [constructor | now apply IH].
Qed.

Lemma lang_AltLits (l : list string) (s : string) :
  lang (AltLits l) s <-> In s l.
Proof.
  induction l as [|t l IH]; simpl.
  - split; [inversion 1 | intros []].
  - destruct l as [|u l].
    + rewrite lang_Lit. simpl. intuition.
    + split.
      * inversion 1; subst; [left | right; now apply IH].
        symmetry. now apply lang_Lit.
      * intros [<- | H]; [apply LAltL; now apply lang_Lit|].
        apply LAltR. now apply IH.
Qed.

Lemma lang_Star_Dot (s : string) :
  lang (Star Dot) s <-> all_chars not_terminator s = true.
Proof.
  split.
  - remember (Star Dot) as r eqn:R. induction 1; try discriminate.
    + reflexivity.
    + injection R as ->. rewrite all_chars_append, IHlang2 by reflexivity.
      apply lang_Dot_inv in H as (c & -> & L). simpl.
      unfold not_terminator. now rewrite L.
  - induction s as [|c s IH]; simpl; intros H; [constructor|].
    apply andb_prop in H as [Hc H].
    change (String c s) with (String c "" ++ s).
    apply LStarS; [|now apply IH]. constructor.
    unfold not_terminator in Hc. now apply negb_true_iff.
Qed.

Lemma lang_Plus_Dot (s : string) :
  lang (Plus Dot) s <-> s <> "" /\ all_chars not_terminator s = true.
Proof.
  unfold Plus. split.
  - intros H. apply lang_Cat_inv in H as (s1 & s2 & -> & H1 & H2).
    apply lang_Dot_inv in H1 as (c & -> & L). simpl. split; [discriminate|].
    unfold not_terminator at 1. rewrite L. simpl. now apply lang_Star_Dot.
  - intros [N H]. destruct s as [|c s]; [now elim N|].
    simpl in H. apply andb_prop in H as [Hc H].
    change (String c s) with (String c "" ++ s).
    constructor; [|now apply lang_Star_Dot].
    constructor. unfold not_terminator in Hc. now apply negb_true_iff.
Qed.

(** [/^.{1,}\.(t1|t2|...)$/]: a non-empty run without line terminators, a
    dot, and one of the suffixes. *)
Lemma matches_suffix_pattern (tlds : list string) (domain : string) :
  matches (Suffix.pattern tlds) domain = true <->
  exists p t, In t tlds /\ domain = p ++ "." ++ t /\ p <> "" /\
              all_chars not_terminator p = true.
Proof.
  rewrite matches_lang. unfold Suffix.pattern. split.
  - intros H. apply lang_Cat_inv in H as (p & s2 & -> & Hp & H2).
    apply lang_Cat_inv in H2 as (d & t & -> & Hd & Ht).
    apply lang_Chr_inv in Hd as ->. apply lang_AltLits in Ht.
    apply lang_Plus_Dot in Hp as [N A]. now exists p, t.
  - intros (p & t & Ht & -> & N & A).
    constructor; [now apply lang_Plus_Dot|].
    change ("." ++ t) with (String "." "" ++ t).
    constructor; [constructor | now apply lang_AltLits].
Qed.

(** [/literal/]: the literal occurs in the text. *)
Lemma search_Lit (t s : string) :
  search (Lit t) s = true <-> exists before rest, s = before ++ t ++ rest.
Proof.
  rewrite search_lang. split.
  - intros (b & p & rest & -> & H). apply lang_Lit in H. subst p.
    now exists b, rest.
  - intros (b & rest & ->). exists b, t, rest. split; [reflexivity|].
    now apply lang_Lit.
Qed.

End RegexFacts.

(* ================================================================== *)
(** * Supported domains *)
(* ================================================================== *)

Module SupportFacts.
Import StringFacts RegexFacts.

Lemma Suffix_isSupportedDomain_wellFormed (tlds : list string) (d : string) :
  Suffix.isSupportedDomain tlds d = true <-> wellFormed tlds d.
Proof.
  unfold Suffix.isSupportedDomain, wellFormed.
  rewrite andb_true_iff, matches_suffix_pattern, Z.gtb_lt. intuition lia.
Qed.

Lemma Cns_isSupportedDomain_wellFormed (d : string) :
  Cns.isSupportedDomain d = true <-> wellFormed ["crypto"] d.
Proof. apply (Suffix_isSupportedDomain_wellFormed ["crypto"]). Qed.

Lemma Zns_isSupportedDomain_wellFormed (d : string) :
  Zns.isSupportedDomain d = true <-> wellFormed ["zil"] d.
Proof. apply (Suffix_isSupportedDomain_wellFormed ["zil"]). Qed.

(** Two patterns over dotless suffixes accept the same domain only
    through a common suffix. *)
Lemma wellFormed_common_suffix (l1 l2 : list string) (d : string) :
  forallb dotless l1 = true -> forallb dotless l2 = true ->
  wellFormed l1 d -> wellFormed l2 d -> exists t, In t l1 /\ In t l2.
Proof.
  intros D1 D2 (_ & p & t & Ht & E1 & _) (_ & q & u & Hu & E2 & _).
  rewrite forallb_forall in D1, D2.
  destruct (suffix_unique p q t u (D1 _ Ht) (D2 _ Hu)) as [_ <-].
  - now rewrite <- E1.
  - now exists t.
Qed.

Lemma zil_excluded (tlds : list string) (d : string) :
  forallb dotless tlds = true ->
  existsb (String.eqb "zil") tlds = false ->
  Suffix.isSupportedDomain tlds d = true ->
  Zns.isSupportedDomain d = true -> False.
Proof.
  intros D N He Hz.
  apply Suffix_isSupportedDomain_wellFormed in He.
  apply Zns_isSupportedDomain_wellFormed in Hz.
  destruct (wellFormed_common_suffix tlds ["zil"] d D eq_refl He Hz)
    as (t & Ht & [<- | []]).
  assert (existsb (String.eqb "zil") tlds = true) as K; [|congruence].
  apply existsb_exists. exists "zil". split; [exact Ht | reflexivity].
Qed.

End SupportFacts.

(** C8.  For a dispatcher whose Zilliqa slot, when filled, decides support
    as the ZNS backend does and whose Ethereum slot, when filled, decides
    it by the shared check over dotless suffixes other than [zil] (the CNS
    backend is one such), [isSupportedDomain] is true exactly when one
    registered backend, and no more, matches the domain.  Each backend's
    check is a condition on the text of the domain alone: the first dot
    is not at the start, and the domain is a non-empty run, a dot and the
    suffix; it is the same whatever chain the backend is connected to. *)
Theorem isSupportedDomain_exactly_one
  (tlds : list string) (n : Namicorn.t) (d : string) :
  forallb dotless tlds = true ->
  existsb (String.eqb "zil") tlds = false ->
  decidesBy (Suffix.isSupportedDomain tlds) (Namicorn.ens n) ->
  decidesBy Zns.isSupportedDomain (Namicorn.zns n) ->
  (Namicorn.isSupportedDomain n d = true <-> length (matching n d) = 1%nat)
  /\ (Zns.isSupportedDomain d = true <-> wellFormed ["zil"] d)
  /\ (Cns.isSupportedDomain d = true <-> wellFormed ["crypto"] d)
  /\ (Suffix.isSupportedDomain tlds d = true <-> wellFormed tlds d)
  /\ (forall sha3 sha3' fetch fetch' cns cns',
        NamingService.isSupportedDomain (cnsMethod sha3 fetch cns) d =
        NamingService.isSupportedDomain (cnsMethod sha3' fetch' cns') d)
  /\ (forall h h' ck ck' b32 b32' at_ at' send send',
        NamingService.isSupportedDomain (znsMethod h ck b32 at_ send) d =
        NamingService.isSupportedDomain (znsMethod h' ck' b32' at' send') d).
Proof.
  intros D N He Hz.
  split;
    [| split; [apply SupportFacts.Zns_isSupportedDomain_wellFormed|];
       split; [apply SupportFacts.Cns_isSupportedDomain_wellFormed|];
       split; [apply SupportFacts.Suffix_isSupportedDomain_wellFormed|];
       split; intros; reflexivity].
  unfold Namicorn.isSupportedDomain, matching, registered.
  destruct (Namicorn.ens n) as [e|], (Namicorn.zns n) as [z|];
    simpl in *.
  - rewrite He, Hz.
    destruct (Suffix.isSupportedDomain tlds d) eqn:Ee,
             (Zns.isSupportedDomain d) eqn:Ez; simpl;
      try (split; [reflexivity | reflexivity]);
      try (split; discriminate).
    exfalso. exact (SupportFacts.zil_excluded tlds d D N Ee Ez).
  - destruct (NamingService.isSupportedDomain e d); simpl;
      split; congruence.
  - destruct (NamingService.isSupportedDomain z d); simpl;
      split; congruence.
  - split; discriminate.
Qed.

Lemma isSupportedDomain_exactly_one_witness :
  (Namicorn.isSupportedDomain
     (Scenario.namicorn Scenario.known Scenario.emptyRecords)
     "brad.crypto" = true <->
   length (matching (Scenario.namicorn Scenario.known Scenario.emptyRecords)
                    "brad.crypto") = 1%nat).
Proof.
  apply (isSupportedDomain_exactly_one ["crypto"]
           (Scenario.namicorn Scenario.known Scenario.emptyRecords)
           "brad.crypto").
  - reflexivity.
  - reflexivity.
  - simpl. intros d. reflexivity.
  - simpl. intros d. reflexivity.
Defined.

(** The first dot must not be the first character, and no line terminator
    may precede the suffix; further dots are accepted. *)
Example isSupportedDomain_samples :
  Cns.isSupportedDomain "brad.crypto" = true
  /\ Cns.isSupportedDomain "a.b.crypto" = true
  /\ Cns.isSupportedDomain ".crypto" = false
  /\ Cns.isSupportedDomain ".a.crypto" = false
  /\ Cns.isSupportedDomain "crypto" = false
  /\ Cns.isSupportedDomain "brad.CRYPTO" = false
  /\ Cns.isSupportedDomain (String "010" "a.crypto") = false
  /\ Zns.isSupportedDomain "brad.zil" = true
  /\ Zns.isSupportedDomain "brad.crypto" = false.
Proof. repeat split. Qed.

(* ================================================================== *)
(** * Namehash *)
(* ================================================================== *)

(** C9.  [namehash] is a function of the lower-cased domain: two supported
    domains that differ only in letter case have the same hash, and the
    hash is produced, not an error; so for [Brad.crypto] and
    [brad.crypto], whatever the digest. *)
Theorem namehash_case_insensitive
  (sha3 : string -> string) (d1 d2 : string) :
  Cns.isSupportedDomain d1 = true ->
  Cns.isSupportedDomain d2 = true ->
  Js.toLowerCase d1 = Js.toLowerCase d2 ->
  Cns.namehash sha3 d1 = Cns.namehash sha3 d2
  /\ Cns.namehash sha3 d1 = Ok (EnsNamehash.hash sha3 d1)
  /\ Cns.namehash sha3 "Brad.crypto" = Cns.namehash sha3 "brad.crypto".
Proof.
  intros S1 S2 E.
  unfold Cns.namehash, Cns.ensureSupportedDomain. rewrite S1, S2. simpl.
  split; [|split; reflexivity].
  unfold EnsNamehash.hash, EnsNamehash.normalize. now rewrite E.
Qed.

Lemma namehash_case_insensitive_witness :
  Cns.namehash Scenario.digest "Brad.crypto" =
  Cns.namehash Scenario.digest "brad.crypto".
Proof.
  apply (namehash_case_insensitive Scenario.digest
           "Brad.crypto" "brad.crypto"); reflexivity.
Defined.

(** An unsupported domain has no hash, whatever its case. *)
Lemma namehash_unsupported (sha3 : string -> string) (d : string) :
  Cns.isSupportedDomain d = false ->
  Cns.namehash sha3 d = Err (ResolutionError UnsupportedDomain [("domain", d)]).
Proof.
  intros S. unfold Cns.namehash, Cns.ensureSupportedDomain. now rewrite S.
Qed.

(** The pattern is case-sensitive: an upper-case suffix is not supported. *)
Example namehash_upper_suffix (sha3 : string -> string) :
  Cns.namehash sha3 "brad.CRYPTO" =
  Err (ResolutionError UnsupportedDomain [("domain", "brad.CRYPTO")]).
Proof. reflexivity. Qed.

(* ================================================================== *)
(** * The dispatcher's address lookups *)
(* ================================================================== *)

Module DispatchFacts.

Lemma isResolutionError_true (e : exn) :
  isResolutionError e = true <-> exists c p, e = ResolutionError c p.
Proof.
  destruct e as [c p|m]; simpl; split; eauto; try discriminate.
  intros (c & p & E). discriminate.
Qed.

(** On the blockchain path [resolve] answers an object or raises. *)
Lemma resolve_blockchain myFetch (n : Namicorn.t) (d : string) :
  Namicorn.blockchain n = true ->
  Namicorn.resolve myFetch n d =
  match Namicorn.resolveUsingBlockchain n d with
  | Ok r => Ok (Some r)
  | Err e => Err e
  end.
Proof.
  intros B. unfold Namicorn.resolve. rewrite B.
  now destruct (Namicorn.resolveUsingBlockchain n d).
Qed.

(** Case analysis on the outcomes of a lookup. *)
Ltac cases :=
  repeat match goal with
         | |- _ /\ _ => split
         | |- _ <-> _ => split
         | |- forall _, _ => intro
         | H : _ \/ _ |- _ => destruct H
         | H : exists _, _ |- _ => destruct H
         | H : Ok (Some _) = Ok (Some _) |- _ => injection H as H; subst
         | H : Err _ = Err _ |- _ => injection H as H; subst
         end;
  simpl in *; try discriminate; try congruence; eauto.

End DispatchFacts.

(** C10.  When [resolve] raises a [ResolutionError], [addressOrThrow]
    returns [null] and does not raise; an error of [resolve] that is not a
    [ResolutionError] comes out of [addressOrThrow] as it is, and no other
    error of [resolve] does. *)
Theorem addressOrThrow_swallows_resolve_errors
  (myFetch : string -> result (option Types.NamicornResolution))
  (n : Namicorn.t) (d t : string) :
  (forall c p, Namicorn.resolve myFetch n d = Err (ResolutionError c p) ->
               Namicorn.addressOrThrow myFetch n d t = Ok None)
  /\ (forall e, Namicorn.resolve myFetch n d = Err e ->
                isResolutionError e = false ->
                Namicorn.addressOrThrow myFetch n d t = Err e)
  /\ (forall e, Namicorn.resolve myFetch n d = Err e ->
                Namicorn.addressOrThrow myFetch n d t = Err e ->
                isResolutionError e = false).
Proof.
  unfold Namicorn.addressOrThrow. repeat split.
  - intros c p ->. reflexivity.
  - intros e -> N. now rewrite N.
  - intros e ->. destruct (isResolutionError e); [discriminate | reflexivity].
Qed.

(** Past [resolve], a domain with an owner and no address under the
    upper-cased ticker makes [addressOrThrow] fail with the code that
    [namicorn.ts] spells 'UnregisteredCurrency'. *)
Lemma addressOrThrow_unregistered_currency
  (myFetch : string -> result (option Types.NamicornResolution))
  (n : Namicorn.t) (d t : string) (r : Types.NamicornResolution) :
  Namicorn.resolve myFetch n d = Ok (Some r) ->
  Js.truthy (Types.owner (Types.meta r)) = true ->
  Js.truthy (property (Js.toUpperCase t) (Types.addresses r)) = false ->
  Namicorn.addressOrThrow myFetch n d t =
  Err (ResolutionError UnregisteredCurrency
         [("domain", d); ("currencyTicker", t)]).
Proof.
  intros R O A. unfold Namicorn.addressOrThrow. now rewrite R, O, A.
Qed.

(** An unsupported domain: [resolve] raises [UnsupportedDomain] and
    [addressOrThrow] returns [null]. *)
Example addressOrThrow_unsupported :
  failsWith (Namicorn.resolve Scenario.noFetch
               (Scenario.namicorn Scenario.known Scenario.emptyRecords)
               "known.com") UnsupportedDomain
  /\ Namicorn.addressOrThrow Scenario.noFetch
       (Scenario.namicorn Scenario.known Scenario.emptyRecords)
       "known.com" "BTC" = Ok None.
Proof. split; [eexists|]; reflexivity. Qed.

(** C3.  On the blockchain path [address] returns [null] exactly when the
    resolution fails with a [ResolutionError], raised by [resolve] or by
    [addressOrThrow]; any other error is raised again, and nothing else
    is.  A domain that resolves without an owner, as an unclaimed one
    does, gives [null] from [address] and [UnregisteredDomain] from
    [addressOrThrow]. *)
Theorem address_null_on_taxonomy_failure
  (myFetch : string -> result (option Types.NamicornResolution))
  (n : Namicorn.t) (d t : string) :
  Namicorn.blockchain n = true ->
  (Namicorn.address myFetch n d t = Ok None <->
   (exists c, failsWith (Namicorn.resolve myFetch n d) c) \/
   (exists c, failsWith (Namicorn.addressOrThrow myFetch n d t) c))
  /\ (forall e, isResolutionError e = false ->
                Namicorn.addressOrThrow myFetch n d t = Err e ->
                Namicorn.address myFetch n d t = Err e)
  /\ (forall e, Namicorn.address myFetch n d t = Err e ->
                isResolutionError e = false /\
                Namicorn.resolve myFetch n d = Err e)
  /\ (forall r, Namicorn.resolve myFetch n d = Ok (Some r) ->
                Js.truthy (Types.owner (Types.meta r)) = false ->
                Namicorn.address myFetch n d t = Ok None /\
                Namicorn.addressOrThrow myFetch n d t =
                Err (ResolutionError UnregisteredDomain [("domain", d)])).
Proof.
  intros B. unfold Namicorn.address, Namicorn.addressOrThrow, failsWith.
  rewrite (DispatchFacts.resolve_blockchain myFetch n d B).
  destruct (Namicorn.resolveUsingBlockchain n d) as [r|[c p|m]]; simpl.
  - destruct (Js.truthy (Types.owner (Types.meta r))) eqn:O; simpl.
    + destruct (property (Js.toUpperCase t) (Types.addresses r))
        as [a|] eqn:P; simpl; [destruct (a =? "")%string eqn:A; simpl|];
        DispatchFacts.cases.
    + DispatchFacts.cases.
  - DispatchFacts.cases.
  - DispatchFacts.cases.
Qed.

Lemma address_null_on_taxonomy_failure_witness :
  Namicorn.address Scenario.noFetch
    (Scenario.namicorn Scenario.known Scenario.emptyRecords)
    "unclaimed.zil" "ETH" = Ok None
  /\ Namicorn.addressOrThrow Scenario.noFetch
       (Scenario.namicorn Scenario.known Scenario.emptyRecords)
       "unclaimed.zil" "ETH" =
     Err (ResolutionError UnregisteredDomain [("domain", "unclaimed.zil")]).
Proof.
  destruct (address_null_on_taxonomy_failure Scenario.noFetch
              (Scenario.namicorn Scenario.known Scenario.emptyRecords)
              "unclaimed.zil" "ETH" eq_refl) as (_ & _ & _ & H).
  apply (H Namicorn.UNCLAIMED_DOMAIN_RESPONSE); reflexivity.
Defined.

(* ================================================================== *)
(** * The CNS backend *)
(* ================================================================== *)

Module CnsFacts.

Lemma truthy_false (v : option string) :
  Js.truthy v = false <-> v = None \/ v = Some "".
Proof.
  unfold Js.truthy. destruct v as [s|]; [|split; auto].
  destruct (String.eqb_spec s ""); subst; cbn [negb]; split; auto;
    try discriminate.
  intros [H | H]; [discriminate | injection H; congruence].
Qed.

Lemma unset_absentOrNull (a : option string) :
  Cns.unset a = true <-> absentOrNull a.
Proof.
  unfold Cns.unset, Js.truthy, absentOrNull.
  destruct a as [s|]; [|split; auto].
  destruct (String.eqb_spec s ""), (String.eqb_spec s NullAddress);
    subst; cbn [negb orb]; split; auto; try discriminate;
    intros [H | [H | H]]; try discriminate; injection H; congruence.
Qed.

Lemma wrongRecord_emptyRecord (v : option string) :
  Cns.wrongRecord v = true <-> emptyRecord v.
Proof.
  unfold Cns.wrongRecord, Js.truthy, emptyRecord.
  destruct v as [s|]; [|split; auto].
  destruct (String.eqb_spec s ""), (String.eqb_spec s "0x"),
           (String.eqb_spec s NullAddress);
    subst; cbn [negb orb]; split; auto; try discriminate;
    intros [H | [H | [H | H]]]; try discriminate; injection H; congruence.
Qed.

Section Calls.

Variable sha3 : string -> string.
Variable fetchMethod : FetchMethod.
Variable cns : Cns.t.

(** A contract call raises no [ResolutionError] but [NamingServiceDown]. *)
Lemma callMethod_code contract methodname params c p :
  Cns.callMethod fetchMethod contract methodname params =
    Err (ResolutionError c p) ->
  c = NamingServiceDown.
Proof.
  unfold Cns.callMethod.
  destruct (match contract with
            | Some c0 => fetchMethod c0 methodname params
            | None => _
            end) as [v|message]; [discriminate|].
  destruct (_ || _); intros H; [now injection H | discriminate].
Qed.

Lemma callMethod_returned contract methodname params v :
  fetchMethod contract methodname params = Returned v ->
  Cns.callMethod fetchMethod (Some contract) methodname params = Ok v.
Proof. unfold Cns.callMethod. now intros ->. Qed.

Lemma namehash_supported (d : string) :
  Cns.isSupportedDomain d = true ->
  Cns.namehash sha3 d = Ok (EnsNamehash.hash sha3 d).
Proof.
  intros S. unfold Cns.namehash, Cns.ensureSupportedDomain. now rewrite S.
Qed.

Lemma namehash_code (d : string) c p :
  Cns.namehash sha3 d = Err (ResolutionError c p) -> c = UnsupportedDomain.
Proof.
  unfold Cns.namehash, Cns.ensureSupportedDomain.
  destruct (Cns.isSupportedDomain d); simpl; intros H;
    [discriminate | now injection H].
Qed.

End Calls.
End CnsFacts.

Section CnsClaims.

Variable sha3 : string -> string.
Variable fetchMethod : FetchMethod.
Variable cns : Cns.t.

(** C4.  For a supported domain whose resolver, as read from the registry,
    is absent or the null address, the resolution meta fails with
    [UnregisteredDomain] when the owner is absent or null as well, and
    with [UnspecifiedResolver], never [UnregisteredDomain], when the owner
    is set; [address] fails in the same way. *)
Theorem missing_resolver_error (d : string) (o r : option string) :
  Cns.isSupportedDomain d = true ->
  Cns.owner fetchMethod cns (EnsNamehash.hash sha3 d) = Ok o ->
  Cns.getResolver fetchMethod cns (EnsNamehash.hash sha3 d) = Ok r ->
  absentOrNull r ->
  (absentOrNull o ->
   Cns.getResolutionMeta sha3 fetchMethod cns d =
   Err (ResolutionError UnregisteredDomain [("domain", d)]))
  /\ (~ absentOrNull o ->
      Cns.getResolutionMeta sha3 fetchMethod cns d =
      Err (ResolutionError UnspecifiedResolver [("domain", d)]) /\
      ~ failsWith (Cns.getResolutionMeta sha3 fetchMethod cns d)
                  UnregisteredDomain)
  /\ (forall t, exists e,
         Cns.getResolutionMeta sha3 fetchMethod cns d = Err e /\
         Cns.address sha3 fetchMethod cns d t = Err e).
Proof.
  intros S Ho Hr Nr. apply CnsFacts.unset_absentOrNull in Nr.
  assert (Cns.getResolutionMeta sha3 fetchMethod cns d =
          Err (ResolutionError
                 (if Cns.unset o then UnregisteredDomain
                  else UnspecifiedResolver) [("domain", d)])) as M.
  { unfold Cns.getResolutionMeta.
    rewrite (CnsFacts.namehash_supported sha3 d S). simpl.
    rewrite Ho. simpl. rewrite Hr. simpl. rewrite Nr.
    now destruct (Cns.unset o). }
  split; [|split].
  - intros No. apply CnsFacts.unset_absentOrNull in No.
    now rewrite M, No.
  - intros No.
    assert (Cns.unset o = false) as U.
    { destruct (Cns.unset o) eqn:U; [|reflexivity].
      elim No. now apply CnsFacts.unset_absentOrNull. }
    rewrite M, U. split; [reflexivity|]. intros [p E]. discriminate.
  - intros t. eexists. split; [exact M|].
    unfold Cns.address. now rewrite M.
Qed.

(** C6, as the code has it.  For a domain whose resolution meta is found,
    the backend's [address] reads the resolver under the key
    [crypto.<TICKER>.address], the ticker in upper case: when nothing, or
    the empty string, is on record it fails with [UnspecifiedCurrency],
    and when an address is on record it returns that address; every
    spelling of the ticker with the same upper-case form reads the same
    record and ends alike.  The dispatcher looks the upper-cased ticker up
    in the resolution: for a domain that has an owner and no address under
    it, [addressOrThrow] fails with the code that [namicorn.ts] spells
    'UnregisteredCurrency' and [address] returns [null]; with an address
    under it, both return that address. *)
Theorem address_by_upper_cased_ticker
  (d t tokenId : string) (o r : option string) (ttl : Z) (v : option string) :
  Cns.getResolutionMeta sha3 fetchMethod cns d = Ok (tokenId, o, ttl, r) ->
  fetchMethod (Cns.resolverContract cns r) "get"
              ["crypto." ++ Js.toUpperCase t ++ ".address"; tokenId]
    = Returned v ->
  (Js.truthy v = false ->
   Cns.address sha3 fetchMethod cns d t =
   Err (ResolutionError UnspecifiedCurrency
          [("domain", d); ("currencyTicker", t)]))
  /\ (Js.truthy v = true ->
      Cns.address sha3 fetchMethod cns d t = Ok (Js.str v))
  /\ (forall t', Js.toUpperCase t' = Js.toUpperCase t ->
        Cns.fetchAddress fetchMethod cns r tokenId t' = Ok v
        /\ (Js.truthy v = false ->
            Cns.address sha3 fetchMethod cns d t' =
            Err (ResolutionError UnspecifiedCurrency
                   [("domain", d); ("currencyTicker", t')]))
        /\ (Js.truthy v = true ->
            Cns.address sha3 fetchMethod cns d t' = Ok (Js.str v)))
  /\ (forall myFetch n res,
        Namicorn.resolve myFetch n d = Ok (Some res) ->
        Js.truthy (Types.owner (Types.meta res)) = true ->
        (Js.truthy (property (Js.toUpperCase t) (Types.addresses res))
           = false ->
         Namicorn.addressOrThrow myFetch n d t =
         Err (ResolutionError UnregisteredCurrency
                [("domain", d); ("currencyTicker", t)])
         /\ Namicorn.address myFetch n d t = Ok None)
        /\ (Js.truthy (property (Js.toUpperCase t) (Types.addresses res))
              = true ->
            Namicorn.addressOrThrow myFetch n d t =
            Ok (property (Js.toUpperCase t) (Types.addresses res))
            /\ Namicorn.address myFetch n d t =
               Ok (property (Js.toUpperCase t) (Types.addresses res)))).
Proof.
  intros M F.
  assert (forall t', Js.toUpperCase t' = Js.toUpperCase t ->
            Cns.fetchAddress fetchMethod cns r tokenId t' = Ok v) as K.
  { intros t' E. unfold Cns.fetchAddress, Cns.getRecord. rewrite E.
    now apply CnsFacts.callMethod_returned. }
  assert (forall t', Js.toUpperCase t' = Js.toUpperCase t ->
            Cns.address sha3 fetchMethod cns d t' =
            if negb (Js.truthy v)
            then Err (ResolutionError UnspecifiedCurrency
                        [("domain", d); ("currencyTicker", t')])
            else Ok (Js.str v)) as A.
  { intros t' E. unfold Cns.address. rewrite M. simpl.
    now rewrite (K t' E). }
  split; [intros V; now rewrite (A t eq_refl), V|].
  split; [intros V; now rewrite (A t eq_refl), V|].
  split.
  - intros t' E. split; [now apply K|].
    split; intros V; now rewrite (A t' E), V.
  - intros myFetch n res R O.
    unfold Namicorn.address, Namicorn.addressOrThrow. rewrite R, O.
    split; intros P; rewrite P; simpl; now split.
Qed.

(** C7.  [record] fails with [RecordNotFound] exactly when the domain is
    supported, the resolver and the record are read without error, and the
    value read is empty, ["0x"] or the null address; when the reads
    succeed with any other value, that value is returned.  An absent value
    is therefore reported as [RecordNotFound], not as a transport
    failure. *)
Theorem record_not_found_iff (d key : string) :
  (failsWith (Cns.record sha3 fetchMethod cns d key) RecordNotFound <->
   exists tokenId r v,
     Cns.namehash sha3 d = Ok tokenId /\
     Cns.getResolver fetchMethod cns tokenId = Ok r /\
     Cns.getRecord fetchMethod (Cns.resolverContract cns r) "get"
                   [key; tokenId] = Ok v /\
     emptyRecord v)
  /\ (forall tokenId r v,
        Cns.namehash sha3 d = Ok tokenId ->
        Cns.getResolver fetchMethod cns tokenId = Ok r ->
        Cns.getRecord fetchMethod (Cns.resolverContract cns r) "get"
                      [key; tokenId] = Ok v ->
        ~ emptyRecord v ->
        exists value, v = Some value /\
                      Cns.record sha3 fetchMethod cns d key = Ok value).
Proof.
  unfold Cns.record. split; [split|].
  - intros [p E].
    destruct (Cns.namehash sha3 d) as [tokenId|e] eqn:N; simpl in E.
    + destruct (Cns.getResolver fetchMethod cns tokenId) as [r|e] eqn:R;
        simpl in E.
      * destruct (Cns.getRecord fetchMethod (Cns.resolverContract cns r)
                    "get" [key; tokenId]) as [v|e] eqn:G; simpl in E.
        -- destruct (Cns.wrongRecord v) eqn:W; [|discriminate].
           exists tokenId, r, v. repeat split; try assumption.
           now apply CnsFacts.wrongRecord_emptyRecord.
        -- injection E as ->. unfold Cns.getRecord in G.
           apply CnsFacts.callMethod_code in G. discriminate.
      * injection E as ->. unfold Cns.getResolver in R.
        apply CnsFacts.callMethod_code in R. discriminate.
    + injection E as ->. apply CnsFacts.namehash_code in N. discriminate.
  - intros (tokenId & r & v & -> & R & G & W). simpl.
    rewrite R. simpl. rewrite G. simpl.
    apply CnsFacts.wrongRecord_emptyRecord in W. rewrite W. now eexists.
  - intros tokenId r v -> R G W. simpl.
    rewrite R. simpl. rewrite G. simpl.
    destruct (Cns.wrongRecord v) eqn:E.
    + elim W. now apply CnsFacts.wrongRecord_emptyRecord.
    + destruct v as [value|]; [|discriminate]. now exists value.
Qed.

End CnsClaims.

Lemma missing_resolver_error_witness :
  Cns.getResolutionMeta Scenario.digest Scenario.ownedWithoutResolver
                        Scenario.mainnet "owned.crypto" =
  Err (ResolutionError UnspecifiedResolver [("domain", "owned.crypto")]).
Proof.
  destruct (missing_resolver_error Scenario.digest
              Scenario.ownedWithoutResolver Scenario.mainnet
              "owned.crypto" (Some Scenario.someOwner) (Some NullAddress)
              eq_refl eq_refl eq_refl (or_intror (or_intror eq_refl)))
    as (_ & H & _).
  apply H. intros [E | [E | E]]; discriminate.
Defined.

Lemma address_by_upper_cased_ticker_witness :
  Cns.address Scenario.digest Scenario.known Scenario.mainnet
              "known.crypto" "btc" =
  Err (ResolutionError UnspecifiedCurrency
         [("domain", "known.crypto"); ("currencyTicker", "btc")])
  /\ Cns.address Scenario.digest Scenario.known Scenario.mainnet
                 "known.crypto" "eth" = Ok Scenario.someAddress.
Proof.
  split.
  - apply (address_by_upper_cased_ticker Scenario.digest Scenario.known
             Scenario.mainnet "known.crypto" "btc"
             (EnsNamehash.hash Scenario.digest "known.crypto")
             (Some Scenario.someOwner) (Some Scenario.someResolver) 120
             (Some "")); reflexivity.
  - apply (address_by_upper_cased_ticker Scenario.digest Scenario.known
             Scenario.mainnet "known.crypto" "eth"
             (EnsNamehash.hash Scenario.digest "known.crypto")
             (Some Scenario.someOwner) (Some Scenario.someResolver) 120
             (Some Scenario.someAddress)); reflexivity.
Defined.

(** C6 fails at the dispatcher.  The domain is resolved, it has an owner,
    and its resolver holds no address for BTC; [addressOrThrow] fails,
    not with [UnspecifiedCurrency] but with 'UnregisteredCurrency', and
    [address] does not fail at all: it returns [null]. *)
Lemma unregistered_currency_at_dispatcher :
  Cns.fetchAddress Scenario.known Scenario.mainnet
                   (Some Scenario.someResolver)
                   (EnsNamehash.hash Scenario.digest "known.crypto") "BTC"
    = Ok (Some "")
  /\ (exists res,
        Namicorn.resolve Scenario.noFetch
          (Scenario.namicorn Scenario.known Scenario.emptyRecords)
          "known.crypto" = Ok (Some res)
        /\ Js.truthy (Types.owner (Types.meta res)) = true)
  /\ Namicorn.addressOrThrow Scenario.noFetch
       (Scenario.namicorn Scenario.known Scenario.emptyRecords)
       "known.crypto" "BTC" =
     Err (ResolutionError UnregisteredCurrency
            [("domain", "known.crypto"); ("currencyTicker", "BTC")])
  /\ ~ failsWith (Namicorn.addressOrThrow Scenario.noFetch
                    (Scenario.namicorn Scenario.known Scenario.emptyRecords)
                    "known.crypto" "BTC") UnspecifiedCurrency
  /\ Namicorn.address Scenario.noFetch
       (Scenario.namicorn Scenario.known Scenario.emptyRecords)
       "known.crypto" "BTC" = Ok None.
Proof.
  split; [reflexivity|]. split; [eexists; split; reflexivity|].
  split; [reflexivity|]. split; [|reflexivity].
  intros [p E]. vm_compute in E. discriminate.
Qed.

(** The instance of [Scenario] is what the constructor builds. *)
Example make_mainnet :
  Cns.make "mainnet" "https://mainnet.infura.io" None = Ok Scenario.mainnet.
Proof. reflexivity. Qed.

(** Unregistered, owned without a resolver, and the two spellings of a
    ticker that is on record, on the chains of [Scenario]. *)
Example getResolutionMeta_unregistered :
  Cns.getResolutionMeta Scenario.digest Scenario.nothingRegistered
                        Scenario.mainnet "thisisnotregistered12345.crypto" =
  Err (ResolutionError UnregisteredDomain
         [("domain", "thisisnotregistered12345.crypto")]).
Proof. reflexivity. Qed.

Example address_any_case :
  Cns.address Scenario.digest Scenario.known Scenario.mainnet
              "known.crypto" "eth" = Ok Scenario.someAddress
  /\ Cns.address Scenario.digest Scenario.known Scenario.mainnet
                 "known.crypto" "ETH" = Ok Scenario.someAddress.
Proof. split; reflexivity. Qed.

Example record_found_and_missing :
  Cns.record Scenario.digest Scenario.known Scenario.mainnet
             "known.crypto" "ttl" = Ok "120"
  /\ failsWith (Cns.record Scenario.digest Scenario.known Scenario.mainnet
                           "known.crypto" "whois.email.value") RecordNotFound
  /\ failsWith (Cns.record Scenario.digest Scenario.endpointDown
                           Scenario.mainnet "known.crypto" "ttl")
               NamingServiceDown.
Proof. repeat split; try (eexists; reflexivity). Qed.

(* ================================================================== *)
(** * The abstract Ethereum naming service *)
(* ================================================================== *)

Section EthereumFacts.

Variable name : string.
Variable namehash : string -> result string.
Variable owner : string -> result (option string).
Variable getResolver : string -> result (option string).

Lemma throwOwnershipError_throws domain ownerPromise :
  EthereumNamingService.throwOwnershipError owner domain ownerPromise
    <> Ok tt.
Proof.
  unfold EthereumNamingService.throwOwnershipError.
  destruct (match ownerPromise with Some p => p | None => owner domain end)
    as [o|e]; simpl; [|discriminate].
  destruct (EthereumNamingService.isNullAddress o); discriminate.
Qed.

(** The same rule in the abstract class: with the resolver missing, the
    owner decides between the two errors. *)
Lemma resolver_missing (d nodeHash : string) (o r : option string) :
  namehash d = Ok nodeHash ->
  owner d = Ok o ->
  getResolver nodeHash = Ok r ->
  EthereumNamingService.isNullAddress r = true ->
  EthereumNamingService.resolver namehash owner getResolver d =
  Err (ResolutionError
         (if EthereumNamingService.isNullAddress o then UnregisteredDomain
          else UnspecifiedResolver) [("domain", d)]).
Proof.
  intros N O R Z. unfold EthereumNamingService.resolver.
  rewrite N. simpl. rewrite R. simpl. rewrite Z, orb_true_r.
  unfold EthereumNamingService.throwOwnershipError. rewrite O. simpl.
  now destruct (EthereumNamingService.isNullAddress o).
Qed.

Lemma resolver_present (d nodeHash : string) (r : option string) :
  namehash d = Ok nodeHash ->
  getResolver nodeHash = Ok r ->
  EthereumNamingService.isNullAddress r = false ->
  EthereumNamingService.resolver namehash owner getResolver d = Ok r.
Proof.
  intros N R Z. unfold EthereumNamingService.resolver.
  rewrite N. simpl. rewrite R. simpl. rewrite Z.
  unfold EthereumNamingService.isNullAddress in Z.
  apply orb_false_elim in Z as [Z _]. now rewrite Z.
Qed.

End EthereumFacts.

(* ================================================================== *)
(** * Transport failures *)
(* ================================================================== *)

Module TransportFacts.
Import RegexFacts.

Lemma signature_found (message : string) :
  contains "Invalid JSON RPC response" message \/
  contains "legacy access request rate exceeded" message <->
  Js.search invalidJsonRpc message || Js.search rateExceeded message = true.
Proof.
  unfold invalidJsonRpc, rateExceeded, contains.
  now rewrite orb_true_iff, !search_Lit.
Qed.

(** A failure without either signature is raised again as it is. *)
Lemma callMethod_other fetchMethod contract methodname params message :
  fetchMethod contract methodname params = Thrown message ->
  ~ contains "Invalid JSON RPC response" message ->
  ~ contains "legacy access request rate exceeded" message ->
  Cns.callMethod fetchMethod (Some contract) methodname params =
  Err (JsError message).
Proof.
  intros F N1 N2. unfold Cns.callMethod. rewrite F.
  destruct (_ || _) eqn:S; [|reflexivity].
  apply signature_found in S. tauto.
Qed.

End TransportFacts.

(** C5, as the code has it.  A contract call of the CNS backend or of the
    abstract Ethereum service whose transport failure carries
    "Invalid JSON RPC response" or "legacy access request rate exceeded"
    in its message fails with [NamingServiceDown], which names the backend
    in its parameters.  The ZNS backend reads contract state without any
    translation: a failure of its transport is raised as it is. *)
Theorem transport_failure_translated (message : string) :
  contains "Invalid JSON RPC response" message \/
  contains "legacy access request rate exceeded" message ->
  (forall (fetchMethod : FetchMethod) contract methodname params,
      fetchMethod contract methodname params = Thrown message ->
      Cns.callMethod fetchMethod (Some contract) methodname params =
      Err (ResolutionError NamingServiceDown [("method", "CNS")]))
  /\ (forall name (fetchMethod : FetchMethod) contract methodname params,
        fetchMethod contract methodname params = Thrown message ->
        EthereumNamingService.callMethod name fetchMethod contract
                                         methodname params =
        Err (ResolutionError NamingServiceDown [("method", name)]))
  /\ (forall send contract field keys,
        send "GetSmartContractSubState"
             (Js.toLowerCase (Js.replace "0x" "" (Zns.address contract)))
             field (map Zns.stringify keys) = Err (JsError message) ->
        Zns.getContractField send contract field keys =
        Err (JsError message)).
Proof.
  intros S. apply TransportFacts.signature_found in S. repeat split.
  - intros fetchMethod contract methodname params F.
    unfold Cns.callMethod. now rewrite F, S.
  - intros name fetchMethod contract methodname params F.
    unfold EthereumNamingService.callMethod. now rewrite F, S.
  - intros send contract field keys F.
    unfold Zns.getContractField. now rewrite F.
Qed.

Lemma transport_failure_translated_witness :
  Cns.callMethod Scenario.endpointDown (Cns.cnsContract Scenario.mainnet)
                 "ownerOf" ["0x00"] =
  Err (ResolutionError NamingServiceDown [("method", "CNS")]).
Proof.
  destruct (transport_failure_translated
              "Error: Invalid JSON RPC response: undefined") as (H & _).
  - left. exists "Error: ", ": undefined". reflexivity.
  - apply H. reflexivity.
Defined.

(** C5 fails for the ZNS backend: the failure whose message the Ethereum
    callers recognise comes out of [getContractField], and of the
    dispatcher's [resolve], as the plain error it is. *)
Lemma zns_transport_failure_not_translated :
  Js.search invalidJsonRpc "Error: Invalid JSON RPC response: undefined"
    = true
  /\ Zns.getContractField Scenario.transportFails
       (Zns.registry Scenario.contractsAt) "records" ["00"] =
     Err (JsError "Error: Invalid JSON RPC response: undefined")
  /\ ~ failsWith (Zns.getContractField Scenario.transportFails
                    (Zns.registry Scenario.contractsAt) "records" ["00"])
                 NamingServiceDown
  /\ ~ failsWith (Namicorn.resolve Scenario.noFetch
                    (Scenario.namicorn Scenario.known Scenario.transportFails)
                    "brad.zil")
                 NamingServiceDown.
Proof.
  repeat split; try reflexivity; intros [p E]; vm_compute in E;
    discriminate.
Qed.

(* ================================================================== *)
(** * The ZNS backend *)
(* ================================================================== *)

Section ZnsFacts.

Variable namehash : string -> string.
Variable toChecksumAddress : string -> result string.
Variable toBech32Address : string -> result string.
Variable contractsAt : string -> Zns.ZContract.
Variable send : string -> string -> string -> list string
                -> result Zns.response.

(** The registry's records are returned and have no entry for the domain:
    the backend answers [null]. *)
Lemma resolve_no_entry (d : string) (records : Zns.statemap) :
  Zns.getContractField send (Zns.registry contractsAt) "records"
                       [namehash d] = Ok (Some records) ->
  lookup (namehash d) records = None ->
  Zns.resolve namehash toChecksumAddress toBech32Address contractsAt send d
  = Ok None.
Proof.
  intros F L. unfold Zns.resolve, Zns.getContractMapValue.
  rewrite F. simpl. now rewrite L.
Qed.

(** The response has no result, or the result has no [records]: reading
    the entry raises a [TypeError]. *)
Lemma resolve_no_field (d : string) :
  Zns.getContractField send (Zns.registry contractsAt) "records"
                       [namehash d] = Ok None ->
  Zns.resolve namehash toChecksumAddress toBech32Address contractsAt send d
  = Err (TypeError (namehash d)).
Proof.
  intros F. unfold Zns.resolve, Zns.getContractMapValue. now rewrite F.
Qed.

Lemma getContractField_no_result contract field keys :
  send "GetSmartContractSubState"
       (Js.toLowerCase (Js.replace "0x" "" (Zns.address contract)))
       field (map Zns.stringify keys) = Ok {| Zns.result_ := None |} ->
  Zns.getContractField send contract field keys = Ok None.
Proof. intros F. unfold Zns.getContractField. now rewrite F. Qed.

End ZnsFacts.

(** A dispatcher turns the [null] of a backend into the unclaimed
    response. *)
Lemma resolve_unclaimed myFetch (n : Namicorn.t) (d : string) method :
  Namicorn.blockchain n = true ->
  Namicorn.getNamingMethod n d = Some method ->
  NamingService.resolve method d = Ok None ->
  Namicorn.resolve myFetch n d =
  Ok (Some Namicorn.UNCLAIMED_DOMAIN_RESPONSE).
Proof.
  intros B M R. rewrite (DispatchFacts.resolve_blockchain myFetch n d B).
  unfold Namicorn.resolveUsingBlockchain. now rewrite M, R.
Qed.

(** Where the records are returned without the entry, the unregistered
    domain gets the unclaimed response, on either chain. *)
Example resolve_unregistered :
  Namicorn.resolve Scenario.noFetch
    (Scenario.namicorn Scenario.nothingRegistered Scenario.emptyRecords)
    "thisisnotregistered12345.zil" =
  Ok (Some {| Types.addresses := [];
              Types.meta := {| Types.owner := None;
                               Types.type := "";
                               Types.ttl := 0 |} |})
  /\ Namicorn.resolve Scenario.noFetch
       (Scenario.namicorn Scenario.nothingRegistered Scenario.emptyRecords)
       "thisisnotregistered12345.crypto" =
     Ok (Some Namicorn.UNCLAIMED_DOMAIN_RESPONSE).
Proof. split; reflexivity. Qed.

(** C2 at the input where the code departs from it.  The node answers the
    read of the registry entry of an unregistered [.zil] domain with a
    response that has no result.  [getContractField] reads the field of
    [{}] instead and returns [undefined]; [getContractMapValue] indexes
    that, and [resolve] raises a [TypeError], which is not a
    [ResolutionError], where the unclaimed response is due. *)
Theorem resolve_unregistered_without_result :
  Namicorn.isSupportedDomain
    (Scenario.namicorn Scenario.nothingRegistered Scenario.noResult)
    "thisisnotregistered12345.zil" = true
  /\ Zns.getContractField Scenario.noResult
       (Zns.registry Scenario.contractsAt) "records"
       [Scenario.digest "thisisnotregistered12345.zil"] = Ok None
  /\ Namicorn.resolve Scenario.noFetch
       (Scenario.namicorn Scenario.nothingRegistered Scenario.noResult)
       "thisisnotregistered12345.zil" =
     Err (TypeError (Scenario.digest "thisisnotregistered12345.zil"))
  /\ isResolutionError
       (TypeError (Scenario.digest "thisisnotregistered12345.zil")) = false
  /\ Namicorn.resolve Scenario.noFetch
       (Scenario.namicorn Scenario.nothingRegistered Scenario.noResult)
       "thisisnotregistered12345.zil" <>
     Ok (Some Namicorn.UNCLAIMED_DOMAIN_RESPONSE).
Proof. repeat split; try reflexivity. discriminate. Qed.

(* ================================================================== *)
(** * What the dispatcher's resolve lets through *)
(* ================================================================== *)

(** C1, as the code has it.  On the blockchain path the dispatcher turns
    the [null] of the selected backend into the unclaimed response,
    returns any other result, and raises again every error that the
    backend's [resolve] raises.  The CNS backend's [resolve] has itself
    answered [null] for every [ResolutionError] of its support check and
    of the resolution meta, whatever the code; an error there that is not
    a [ResolutionError], and any error of the address fetch that follows,
    is raised. *)
Theorem resolve_normalises_null
  (myFetch : string -> result (option Types.NamicornResolution))
  (n : Namicorn.t) (d : string) (method : NamingService.t) :
  Namicorn.blockchain n = true ->
  Namicorn.getNamingMethod n d = Some method ->
  (NamingService.resolve method d = Ok None ->
   Namicorn.resolve myFetch n d =
   Ok (Some Namicorn.UNCLAIMED_DOMAIN_RESPONSE))
  /\ (forall r, NamingService.resolve method d = Ok (Some r) ->
                Namicorn.resolve myFetch n d = Ok (Some r))
  /\ (forall e, NamingService.resolve method d = Err e ->
                Namicorn.resolve myFetch n d = Err e)
  /\ (forall sha3 fetchMethod cns e,
        bind (Cns.ensureSupportedDomain d)
             (fun _ => Cns.getResolutionMeta sha3 fetchMethod cns d) = Err e ->
        Cns.resolve sha3 fetchMethod cns d =
        if isResolutionError e then Ok None else Err e)
  /\ (forall sha3 fetchMethod cns tokenId o ttl r e,
        bind (Cns.ensureSupportedDomain d)
             (fun _ => Cns.getResolutionMeta sha3 fetchMethod cns d) =
          Ok (tokenId, o, ttl, r) ->
        Cns.fetchAddress fetchMethod cns r tokenId "ETH" = Err e ->
        Cns.resolve sha3 fetchMethod cns d = Err e).
Proof.
  intros B M.
  rewrite (DispatchFacts.resolve_blockchain myFetch n d B).
  unfold Namicorn.resolveUsingBlockchain. rewrite M.
  repeat split.
  - now intros ->.
  - now intros r ->.
  - now intros e ->.
  - intros sha3 fetchMethod cns e E. unfold Cns.resolve. now rewrite E.
  - intros sha3 fetchMethod cns tokenId o ttl r e E F.
    unfold Cns.resolve. rewrite E, F. reflexivity.
Qed.

Lemma resolve_normalises_null_witness :
  Namicorn.resolve Scenario.noFetch
    (Scenario.namicorn Scenario.nothingRegistered Scenario.emptyRecords)
    "thisisnotregistered12345.crypto" =
  Ok (Some Namicorn.UNCLAIMED_DOMAIN_RESPONSE).
Proof.
  destruct (resolve_normalises_null Scenario.noFetch
              (Scenario.namicorn Scenario.nothingRegistered
                                 Scenario.emptyRecords)
              "thisisnotregistered12345.crypto"
              (cnsMethod Scenario.digest Scenario.nothingRegistered
                         Scenario.mainnet)
              eq_refl eq_refl) as (H & _).
  apply H. reflexivity.
Defined.

(** C1 fails where the CNS backend is the one selected.  A domain that has
    an owner and the null address as its resolver makes the resolution
    meta fail with [UnspecifiedResolver], and a dead endpoint makes it
    fail with [NamingServiceDown]; in both cases the dispatcher's
    [resolve] does not raise: it returns the unclaimed response. *)
Lemma resolve_unclaimed_on_unspecified_resolver :
  failsWith (Cns.getResolutionMeta Scenario.digest
               Scenario.ownedWithoutResolver Scenario.mainnet "owned.crypto")
            UnspecifiedResolver
  /\ Namicorn.resolve Scenario.noFetch
       (Scenario.namicorn Scenario.ownedWithoutResolver Scenario.emptyRecords)
       "owned.crypto" =
     Ok (Some Namicorn.UNCLAIMED_DOMAIN_RESPONSE)
  /\ failsWith (Cns.getResolutionMeta Scenario.digest
                  Scenario.endpointDown Scenario.mainnet "owned.crypto")
               NamingServiceDown
  /\ Namicorn.resolve Scenario.noFetch
       (Scenario.namicorn Scenario.endpointDown Scenario.emptyRecords)
       "owned.crypto" =
     Ok (Some Namicorn.UNCLAIMED_DOMAIN_RESPONSE).
Proof. repeat split; try (eexists; reflexivity). Qed.

(** The outcome of the two cases above does not depend on the digest. *)
Lemma resolve_unclaimed_any_digest (sha3 : string -> string) :
  Cns.resolve sha3 Scenario.ownedWithoutResolver Scenario.mainnet
              "owned.crypto" = Ok None
  /\ Cns.resolve sha3 Scenario.endpointDown Scenario.mainnet
                 "owned.crypto" = Ok None.
Proof. split; reflexivity. Qed.

(* ================================================================== *)
(** * More facts about strings *)
(* ================================================================== *)

Module MoreStringFacts.
Import StringFacts.

Lemma upper_char_idempotent (c : ascii) :
  Js.upper_char (Js.upper_char c) = Js.upper_char c.
Proof.
  destruct c as [[] [] [] [] [] [] [] []]; reflexivity.
Qed.

Lemma toUpperCase_idempotent (s : string) :
  Js.toUpperCase (Js.toUpperCase s) = Js.toUpperCase s.
Proof.
  unfold Js.toUpperCase.
  induction s as [|c s IH]; simpl; [reflexivity|].
  now rewrite upper_char_idempotent, IH.
Qed.

(** [indexOf] finds a needle exactly when it occurs. *)
Lemma indexOfFrom_contains (needle s : string) (i : Z) :
  0 <= i ->
  (Js.indexOfFrom needle s i >= 0 <-> contains needle s).
Proof.
  revert i. induction s as [|c s IH]; intros i Hi.
  - cbn [Js.indexOfFrom]. destruct (String.prefix needle "") eqn:P.
    + split; [|lia]. intros _. apply prefix_append in P as [r E].
      exists "", r. exact E.
    + split; [lia|]. intros (b & r & E). exfalso.
      symmetry in E. apply append_eq_nil in E as [-> E].
      simpl in E. assert (String.prefix needle "" = true); [|congruence].
      apply prefix_append. exists r. now symmetry.
  - cbn [Js.indexOfFrom]. destruct (String.prefix needle (String c s)) eqn:P.
    + split; [|lia]. intros _. apply prefix_append in P as [r E].
      exists "", r. exact E.
    + rewrite (IH (i + 1)) by lia. split.
      * intros (b & r & ->). now exists (String c b), r.
      * intros ([|d b] & r & E); simpl in E.
        -- assert (String.prefix needle (String c s) = true); [|congruence].
           apply prefix_append. now exists r.
        -- injection E as _ ->. now exists b, r.
Qed.

Lemma indexOf_contains (needle s : string) :
  (Js.indexOf needle s >=? 0) = true <-> contains needle s.
Proof.
  unfold Js.indexOf. rewrite Z.geb_le.
  rewrite <- (indexOfFrom_contains needle s 0) by lia. lia.
Qed.

(** Splitting at the dots. *)
Lemma split_acc_dotless (s cur : string) :
  dotless s = true -> Js.split_acc "." s cur = [cur ++ s].
Proof.
  unfold dotless. revert cur.
  induction s as [|c s IH]; intros cur H; simpl.
  - now rewrite append_nil_r.
  - simpl in H. apply andb_prop in H as [Hc H]. unfold not_dot in Hc.
    apply negb_true_iff in Hc. rewrite Hc, (IH _ H), append_assoc.
    reflexivity.
Qed.

Lemma split_acc_dot (a rest cur : string) :
  dotless a = true ->
  Js.split_acc "." (a ++ "." ++ rest) cur =
  (cur ++ a) :: Js.split_acc "." rest "".
Proof.
  unfold dotless. revert cur.
  induction a as [|c a IH]; intros cur H; simpl.
  - now rewrite append_nil_r.
  - simpl in H. apply andb_prop in H as [Hc H]. unfold not_dot in Hc.
    apply negb_true_iff in Hc. rewrite Hc, (IH _ H), append_assoc.
    reflexivity.
Qed.

Lemma split_address_key (ticker : string) :
  dotless ticker = true ->
  Js.split "." ("crypto." ++ ticker ++ ".address") =
  ["crypto"; ticker; "address"].
Proof.
  intros D. unfold Js.split.
  change ("crypto." ++ ticker ++ ".address")
    with ("crypto" ++ "." ++ (ticker ++ "." ++ "address")).
  rewrite (split_acc_dot "crypto" (ticker ++ "." ++ "address") "" eq_refl).
  rewrite (split_acc_dot ticker "address" "" D).
  now rewrite (split_acc_dotless "address" "" eq_refl).
Qed.

End MoreStringFacts.

(* ================================================================== *)
(** * The dispatcher: selection, lookups and construction *)
(* ================================================================== *)

Module MoreDispatchFacts.

Lemma getNamingMethod_none (n : Namicorn.t) (d : string) :
  Namicorn.getNamingMethod n d = None <->
  Namicorn.isSupportedDomain n d = false.
Proof.
  unfold Namicorn.getNamingMethod, Namicorn.isSupportedDomain.
  destruct (Namicorn.ens n) as [e|], (Namicorn.zns n) as [z|]; simpl;
    try destruct (NamingService.isSupportedDomain e d);
    try destruct (NamingService.isSupportedDomain z d); simpl;
    split; congruence.
Qed.

(** What an address that [address] returns was read from. *)
Lemma address_some
  (myFetch : string -> result (option Types.NamicornResolution))
  (n : Namicorn.t) (d t a : string) :
  Namicorn.address myFetch n d t = Ok (Some a) ->
  exists r, Namicorn.resolve myFetch n d = Ok (Some r)
            /\ property (Js.toUpperCase t) (Types.addresses r) = Some a.
Proof.
  unfold Namicorn.address, Namicorn.addressOrThrow.
  destruct (Namicorn.resolve myFetch n d) as [[r|]|e]; simpl.
  - destruct (negb (Js.truthy (Types.owner (Types.meta r))));
      [discriminate|].
    destruct (negb (Js.truthy (property (Js.toUpperCase t)
                                        (Types.addresses r))));
      [discriminate|].
    intros H. injection H as H. now exists r.
  - discriminate.
  - destruct (isResolutionError e) eqn:R; simpl; try rewrite R;
      discriminate.
Qed.

End MoreDispatchFacts.

(** X1.  [getNamingMethod] finds no backend exactly when
    [isSupportedDomain] is false; a backend that it finds is registered
    and supports the domain; the Ethereum slot goes first, so it is the
    one selected whenever it supports the domain, and the Zilliqa slot is
    selected only when the Ethereum slot does not. *)
Theorem getNamingMethod_selects (n : Namicorn.t) (d : string) :
  (Namicorn.getNamingMethod n d = None <->
   Namicorn.isSupportedDomain n d = false)
  /\ (forall m, Namicorn.getNamingMethod n d = Some m ->
                NamingService.isSupportedDomain m d = true /\
                In m (registered n))
  /\ (Namicorn.supports d (Namicorn.ens n) = true ->
      Namicorn.getNamingMethod n d = Namicorn.ens n)
  /\ (Namicorn.supports d (Namicorn.ens n) = false ->
      Namicorn.getNamingMethod n d =
      if Namicorn.supports d (Namicorn.zns n) then Namicorn.zns n else None).
Proof.
  unfold Namicorn.getNamingMethod, Namicorn.isSupportedDomain, registered.
  destruct (Namicorn.ens n) as [e|], (Namicorn.zns n) as [z|]; simpl;
    try destruct (NamingService.isSupportedDomain e d) eqn:E;
    try destruct (NamingService.isSupportedDomain z d) eqn:Z; simpl;
    repeat split; try discriminate; try reflexivity; try congruence;
    try (intros m H; injection H as <-; assumption);
    try (injection H as <-; auto).
Qed.

(** X2.  On the blockchain path a domain that no registered backend
    supports makes [resolve] fail with [UnsupportedDomain], whatever the
    backends would answer; [addressOrThrow] and [address] return [null]
    for it. *)
Theorem unsupported_domain_outcome
  (myFetch : string -> result (option Types.NamicornResolution))
  (n : Namicorn.t) (d t : string) :
  Namicorn.blockchain n = true ->
  Namicorn.isSupportedDomain n d = false ->
  Namicorn.resolve myFetch n d =
    Err (ResolutionError UnsupportedDomain [("domain", d)])
  /\ Namicorn.addressOrThrow myFetch n d t = Ok None
  /\ Namicorn.address myFetch n d t = Ok None.
Proof.
  intros B S.
  assert (Namicorn.resolve myFetch n d =
          Err (ResolutionError UnsupportedDomain [("domain", d)])) as R.
  { rewrite (DispatchFacts.resolve_blockchain myFetch n d B).
    unfold Namicorn.resolveUsingBlockchain.
    apply MoreDispatchFacts.getNamingMethod_none in S. now rewrite S. }
  split; [exact R|].
  unfold Namicorn.address, Namicorn.addressOrThrow. now rewrite R.
Qed.

Lemma unsupported_domain_outcome_witness :
  Namicorn.resolve Scenario.noFetch
    (Scenario.namicorn Scenario.known Scenario.emptyRecords) "known.com" =
  Err (ResolutionError UnsupportedDomain [("domain", "known.com")]).
Proof.
  apply (unsupported_domain_outcome Scenario.noFetch
           (Scenario.namicorn Scenario.known Scenario.emptyRecords)
           "known.com" "BTC"); reflexivity.
Defined.

(** X3.  An address that [address] returns is never the empty string: it
    is the entry under the upper-cased ticker of a resolution that has an
    owner.  This holds on the blockchain path and on the fallback. *)
Theorem address_found
  (myFetch : string -> result (option Types.NamicornResolution))
  (n : Namicorn.t) (d t a : string) :
  Namicorn.address myFetch n d t = Ok (Some a) ->
  a <> ""
  /\ exists r, Namicorn.resolve myFetch n d = Ok (Some r)
               /\ Js.truthy (Types.owner (Types.meta r)) = true
               /\ property (Js.toUpperCase t) (Types.addresses r) = Some a.
Proof.
  unfold Namicorn.address, Namicorn.addressOrThrow.
  destruct (Namicorn.resolve myFetch n d) as [[r|]|e]; simpl.
  - destruct (Js.truthy (Types.owner (Types.meta r))) eqn:O; simpl;
      [|discriminate].
    destruct (Js.truthy (property (Js.toUpperCase t) (Types.addresses r)))
      eqn:P; simpl; [|discriminate].
    intros H. injection H as H. rewrite H in P. split.
    + intros ->. discriminate.
    + now exists r.
  - discriminate.
  - destruct (isResolutionError e) eqn:R; simpl; try rewrite R;
      discriminate.
Qed.

Lemma address_found_witness :
  exists r,
    Namicorn.resolve Scenario.noFetch
      (Scenario.namicorn Scenario.known Scenario.emptyRecords)
      "known.crypto" = Ok (Some r)
    /\ Js.truthy (Types.owner (Types.meta r)) = true
    /\ property "ETH" (Types.addresses r) = Some Scenario.someAddress.
Proof.
  apply (address_found Scenario.noFetch
           (Scenario.namicorn Scenario.known Scenario.emptyRecords)
           "known.crypto" "eth" Scenario.someAddress).
  reflexivity.
Defined.

(** X4.  [address] does not tell apart two spellings of a ticker that have
    the same upper-case form; in particular a ticker and its upper-case
    form give the same answer. *)
Theorem address_ticker_case
  (myFetch : string -> result (option Types.NamicornResolution))
  (n : Namicorn.t) (d t1 t2 : string) :
  Js.toUpperCase t1 = Js.toUpperCase t2 ->
  Namicorn.address myFetch n d t1 = Namicorn.address myFetch n d t2
  /\ Namicorn.address myFetch n d (Js.toUpperCase t1) =
     Namicorn.address myFetch n d t1.
Proof.
  assert (forall u v, Js.toUpperCase u = Js.toUpperCase v ->
            Namicorn.address myFetch n d u = Namicorn.address myFetch n d v)
    as K.
  { intros u v E. unfold Namicorn.address, Namicorn.addressOrThrow.
    rewrite E.
    destruct (Namicorn.resolve myFetch n d) as [[r|]|e]; try reflexivity.
    destruct (negb (Js.truthy (Types.owner (Types.meta r))));
      [reflexivity|].
    now destruct (negb (Js.truthy (property (Js.toUpperCase v)
                                            (Types.addresses r)))). }
  intros E. split; [now apply K|].
  apply K. apply MoreStringFacts.toUpperCase_idempotent.
Qed.

Lemma address_ticker_case_witness :
  Namicorn.address Scenario.noFetch
    (Scenario.namicorn Scenario.known Scenario.emptyRecords)
    "known.crypto" "eth" =
  Namicorn.address Scenario.noFetch
    (Scenario.namicorn Scenario.known Scenario.emptyRecords)
    "known.crypto" "Eth".
Proof.
  apply (address_ticker_case Scenario.noFetch
           (Scenario.namicorn Scenario.known Scenario.emptyRecords)
           "known.crypto" "eth" "Eth").
  reflexivity.
Defined.

(** X5.  Through the dispatcher a domain of the CNS backend has an address
    for no ticker but ETH: the backend's [resolve] fetches that one
    record, so for any other ticker [address] never returns an address. *)
Theorem address_over_cns_only_eth
  (myFetch : string -> result (option Types.NamicornResolution))
  (sha3 : string -> string) (fetchMethod : FetchMethod) (cns : Cns.t)
  (n : Namicorn.t) (d t : string) (m : NamingService.t) :
  Namicorn.blockchain n = true ->
  Namicorn.getNamingMethod n d = Some m ->
  NamingService.resolve m d = Cns.resolve sha3 fetchMethod cns d ->
  Js.toUpperCase t <> "ETH" ->
  forall a, Namicorn.address myFetch n d t <> Ok (Some a).
Proof.
  intros B M R T a H.
  apply MoreDispatchFacts.address_some in H as (r & Hr & P).
  rewrite (DispatchFacts.resolve_blockchain myFetch n d B) in Hr.
  unfold Namicorn.resolveUsingBlockchain in Hr. rewrite M, R in Hr.
  unfold Cns.resolve in Hr.
  destruct (bind (Cns.ensureSupportedDomain d) _)
    as [[[[tokenId o] ttl] res]|e]; simpl in Hr.
  - destruct (Cns.fetchAddress fetchMethod cns res tokenId "ETH") as [v|e];
      simpl in Hr; [|discriminate].
    injection Hr as <-. unfold property in P.
    cbn [Types.addresses lookup] in P.
    destruct (String.eqb_spec "ETH" (Js.toUpperCase t)) as [E|_];
      [now elim T | discriminate].
  - destruct (isResolutionError e); simpl in Hr; [|discriminate].
    injection Hr as <-. discriminate.
Qed.

Lemma address_over_cns_only_eth_witness :
  Namicorn.address Scenario.noFetch
    (Scenario.namicorn Scenario.known Scenario.emptyRecords)
    "known.crypto" "BTC" <> Ok (Some Scenario.someAddress).
Proof.
  apply (address_over_cns_only_eth Scenario.noFetch Scenario.digest
           Scenario.known Scenario.mainnet
           (Scenario.namicorn Scenario.known Scenario.emptyRecords)
           "known.crypto" "BTC"
           (cnsMethod Scenario.digest Scenario.known Scenario.mainnet));
    try reflexivity.
  discriminate.
Defined.

(** X6.  With [blockchain: false] the constructor builds no backend and
    consults neither backend's constructor, so it cannot fail; the
    instance supports no domain and [resolve] is the HTTP fallback on
    [<api>/<domain>]. *)
Theorem construct_off
  (newEns newZns : Source.NamingServiceSource -> result NamingService.t)
  (myFetch : string -> result (option Types.NamicornResolution))
  (api : option string) :
  exists n,
    NamicornConstructor.construct newEns newZns (Some (Source.Flag false)) api
      = Ok n
    /\ Namicorn.ens n = None /\ Namicorn.zns n = None
    /\ (forall d, Namicorn.isSupportedDomain n d = false)
    /\ (forall d, Namicorn.resolve myFetch n d =
                  myFetch (Namicorn.api n ++ "/" ++ d))
    /\ (api = None -> Namicorn.api n = Namicorn.DefaultUrl).
Proof.
  eexists. split; [reflexivity|]. simpl. repeat split.
  intros ->. reflexivity.
Qed.

(** X7.  The constructor's defaults: no argument, [true], an empty object
    and an object that names both backends as [true] build the same
    instance.  A backend given as [false] or as the empty string is left
    out without its constructor being consulted, be it the Ethereum or
    the Zilliqa one; a backend that is given otherwise, or not named, is
    built by its constructor from the source given, [true] when it is not
    named, and an error of that constructor fails the construction.  On
    any instance that is built, [blockchain] is off only for the argument
    [false], and then no backend is set. *)
Theorem construct_defaults
  (newEns newZns : Source.NamingServiceSource -> result NamingService.t)
  (api : option string) :
  (NamicornConstructor.construct newEns newZns None api =
   NamicornConstructor.construct newEns newZns (Some (Source.Flag true)) api)
  /\ (NamicornConstructor.construct newEns newZns
        (Some (Source.Backends None None)) api =
      NamicornConstructor.construct newEns newZns
        (Some (Source.Flag true)) api)
  /\ (NamicornConstructor.construct newEns newZns
        (Some (Source.Backends (Some (Source.OfBoolean true))
                               (Some (Source.OfBoolean true)))) api =
      NamicornConstructor.construct newEns newZns
        (Some (Source.Flag true)) api)
  /\ (forall e z newEns' n,
        Source.truthy e = false ->
        NamicornConstructor.construct newEns newZns
          (Some (Source.Backends (Some e) z)) api = Ok n ->
        Namicorn.ens n = None /\
        NamicornConstructor.construct newEns' newZns
          (Some (Source.Backends (Some e) z)) api = Ok n)
  /\ (forall b n,
        NamicornConstructor.construct newEns newZns b api = Ok n ->
        (Namicorn.blockchain n = false <-> b = Some (Source.Flag false)) /\
        (Namicorn.blockchain n = false ->
         Namicorn.ens n = None /\ Namicorn.zns n = None))
  /\ (forall e z newZns',
        Source.truthy z = false ->
        NamicornConstructor.construct newEns newZns
          (Some (Source.Backends e (Some z))) api =
        NamicornConstructor.construct newEns newZns'
          (Some (Source.Backends e (Some z))) api
        /\ forall n,
             NamicornConstructor.construct newEns newZns
               (Some (Source.Backends e (Some z))) api = Ok n ->
             Namicorn.zns n = None)
  /\ (forall e z newEns',
        Source.truthy e = false ->
        NamicornConstructor.construct newEns newZns
          (Some (Source.Backends (Some e) z)) api =
        NamicornConstructor.construct newEns' newZns
          (Some (Source.Backends (Some e) z)) api)
  /\ (forall e z n,
        NamicornConstructor.construct newEns newZns
          (Some (Source.Backends e z)) api = Ok n ->
        let ensSource := match e with
                         | Some s => s
                         | None => Source.OfBoolean true
                         end in
        let znsSource := match z with
                         | Some s => s
                         | None => Source.OfBoolean true
                         end in
        (Source.truthy ensSource = true ->
         exists m, newEns ensSource = Ok m /\ Namicorn.ens n = Some m)
        /\ (Source.truthy znsSource = true ->
            exists m, newZns znsSource = Ok m /\ Namicorn.zns n = Some m))
  /\ (forall e z err,
        let ensSource := match e with
                         | Some s => s
                         | None => Source.OfBoolean true
                         end in
        Source.truthy ensSource = true ->
        newEns ensSource = Err err ->
        NamicornConstructor.construct newEns newZns
          (Some (Source.Backends e z)) api = Err err)
  /\ (forall e z err n,
        let znsSource := match z with
                         | Some s => s
                         | None => Source.OfBoolean true
                         end in
        Source.truthy znsSource = true ->
        newZns znsSource = Err err ->
        NamicornConstructor.construct newEns newZns
          (Some (Source.Backends e z)) api <> Ok n).
Proof.
  assert (forall make s, Source.truthy s = false ->
            NamicornConstructor.build make (Some s) = Ok None) as Off.
  { intros make s Ts. unfold NamicornConstructor.build. now rewrite Ts. }
  split; [reflexivity|]. split; [reflexivity|]. split; [reflexivity|].
  split.
  { intros e z newEns' n Te.
    unfold NamicornConstructor.construct. rewrite !(Off _ e Te). simpl.
    intros E. split; [|exact E].
    destruct (NamicornConstructor.build newZns z); simpl in E;
      [injection E as <-; reflexivity | discriminate]. }
  split.
  { intros b n E.
    assert (b = Some (Source.Flag false) \/
            (b <> Some (Source.Flag false) /\ Namicorn.blockchain n = true))
      as [-> | [Nb Bn]].
    { unfold NamicornConstructor.construct in E.
      destruct b as [[[|]|e z]|]; try (now left); right;
        (split; [discriminate|]);
        (destruct (NamicornConstructor.build newEns _); simpl in E;
         [destruct (NamicornConstructor.build newZns _); simpl in E|];
         try discriminate; now injection E as <-). }
    - simpl in E. injection E as <-. simpl. now repeat split.
    - rewrite Bn. split; [split; [discriminate | intros K; now elim Nb]|].
      discriminate. }
  split.
  { intros e z newZns' Tz.
    unfold NamicornConstructor.construct. rewrite !(Off _ z Tz).
    split; [reflexivity|]. intros n.
    destruct (NamicornConstructor.build newEns e); simpl; intros E;
      [injection E as <-; reflexivity | discriminate]. }
  split.
  { intros e z newEns' Te.
    unfold NamicornConstructor.construct. now rewrite !(Off _ e Te). }
  split.
  { intros e z n E ensSource znsSource. subst ensSource znsSource.
    unfold NamicornConstructor.construct, NamicornConstructor.build in E.
    cbn [bind] in E. split; intros T; rewrite ?T in E.
    - destruct (newEns _) as [m|err]; cbn [bind] in E; [|discriminate].
      exists m. split; [reflexivity|].
      destruct (Source.truthy (match z with Some s => s | None => _ end));
        cbn [bind] in E;
        [destruct (newZns _); cbn [bind] in E; [|discriminate]|];
        now injection E as <-.
    - destruct (Source.truthy (match e with Some s => s | None => _ end));
        cbn [bind] in E;
        [destruct (newEns _); cbn [bind] in E; [|discriminate]|];
        (destruct (newZns _) as [m|err]; cbn [bind] in E; [|discriminate]);
        exists m; (split; [reflexivity|]); now injection E as <-. }
  split.
  { intros e z err ensSource T F. subst ensSource.
    unfold NamicornConstructor.construct, NamicornConstructor.build.
    now rewrite T, F. }
  intros e z err n znsSource T F. subst znsSource.
  unfold NamicornConstructor.construct, NamicornConstructor.build.
  rewrite T, F. cbn [bind].
  destruct (Source.truthy (match e with Some s => s | None => _ end));
    cbn [bind]; [destruct (newEns _); cbn [bind]|]; discriminate.
Qed.

(* ================================================================== *)
(** * Source normalisation and the CNS constructor *)
(* ================================================================== *)

Module SourceFacts.
Import Source NormalizeSource.

Lemma find_first {A : Type} (f : A -> bool) (l : list A) (x : A) :
  find f l = Some x <->
  exists before after,
    l = (before ++ x :: after)%list /\ f x = true /\
    forall y, In y before -> f y = false.
Proof.
  induction l as [|a l IH]; simpl.
  - split; [discriminate|]. intros ([|b before] & after & E & _); discriminate.
  - destruct (f a) eqn:Fa.
    + split.
      * intros H. injection H as <-. exists [], l. now repeat split.
      * intros ([|b before] & after & E & Fx & N); simpl in E;
          injection E as E1 E2; subst.
        -- reflexivity.
        -- rewrite (N b) in Fa by now left. discriminate.
    + rewrite IH. split.
      * intros (before & after & -> & Fx & N).
        exists (a :: before), after. repeat split; [exact Fx|].
        intros y [<- | H]; [exact Fa | now apply N].
      * intros ([|b before] & after & E & Fx & N); simpl in E;
          injection E as E1 E2; subst.
        -- congruence.
        -- exists before, after. repeat split; [exact Fx|].
           intros y H. apply N. now right.
Qed.

Lemma find_none_iff {A : Type} (f : A -> bool) (l : list A) :
  find f l = None <-> forall y, In y l -> f y = false.
Proof.
  induction l as [|a l IH]; simpl; [intuition|].
  destruct (f a) eqn:Fa.
  - split; [discriminate|]. intros N. rewrite (N a) in Fa by now left.
    discriminate.
  - rewrite IH. split.
    + intros N y [<- | H]; [exact Fa | now apply N].
    + intros N y H. apply N. now right.
Qed.

Lemma known_name (k : string) :
  In k (map fst NetworkNameMap) ->
  k = "mainnet" \/ k = "ropsten" \/ k = "rinkeby" \/ k = "goerli" \/
  k = "kovan".
Proof. simpl. intuition. Qed.

Lemma networkFromUrl_known (u k : string) :
  networkFromUrl u = Some k ->
  In k (map fst NetworkNameMap) /\ contains k u /\ u <> "".
Proof.
  intros H. pose proof H as F. unfold networkFromUrl in F.
  apply find_some in F as [I C]. split; [exact I|].
  split; [now apply MoreStringFacts.indexOf_contains|].
  intros ->. apply known_name in I.
  destruct I as [-> | [-> | [-> | [-> | ->]]]]; discriminate.
Qed.

End SourceFacts.

(** X8.  [networkFromUrl] answers the first network name, in the order
    mainnet, ropsten, rinkeby, goerli, kovan, that occurs anywhere in the
    URL, and nothing exactly when none of them occurs. *)
Theorem networkFromUrl_first (url : string) :
  (NormalizeSource.networkFromUrl url = None <->
   forall k, In k (map fst NormalizeSource.NetworkNameMap) ->
             ~ contains k url)
  /\ (forall k,
        NormalizeSource.networkFromUrl url = Some k <->
        exists before after,
          map fst NormalizeSource.NetworkNameMap =
            (before ++ k :: after)%list
          /\ contains k url
          /\ forall k', In k' before -> ~ contains k' url).
Proof.
  unfold NormalizeSource.networkFromUrl. split.
  - rewrite SourceFacts.find_none_iff. split; intros N k I.
    + intros C. apply MoreStringFacts.indexOf_contains in C.
      rewrite (N k I) in C. discriminate.
    + destruct (Js.indexOf k url >=? 0) eqn:E; [|reflexivity].
      apply MoreStringFacts.indexOf_contains in E. now elim (N k I).
  - intros k. rewrite SourceFacts.find_first. split.
    + intros (b & a & E & C & N). exists b, a.
      split; [exact E|]. split; [now apply MoreStringFacts.indexOf_contains|].
      intros k' I C'. apply MoreStringFacts.indexOf_contains in C'.
      rewrite (N k' I) in C'. discriminate.
    + intros (b & a & E & C & N). exists b, a.
      split; [exact E|]. split; [now apply MoreStringFacts.indexOf_contains|].
      intros k' I. destruct (Js.indexOf k' url >=? 0) eqn:F; [|reflexivity].
      apply MoreStringFacts.indexOf_contains in F. now elim (N k' I).
Qed.

(** A URL that names two networks belongs to the one that comes first in
    the map, wherever the names stand in the URL. *)
Example networkFromUrl_two_names :
  NormalizeSource.networkFromUrl "https://kovan.example.org/ropsten" =
  Some "ropsten".
Proof. reflexivity. Qed.

(** X9.  Network and URL determine each other for the five known
    networks: a definition that gives only the name, or only the chain
    id, of a known network is completed with the URL
    [https://<name>.infura.io], and that URL alone is normalised to the
    same definition. *)
Theorem network_url_round_trip (k : string) :
  In k (map fst NormalizeSource.NetworkNameMap) ->
  let complete :=
    {| Source.url := Some (NormalizeSource.infura k);
       Source.network := Some (Source.Name k);
       Source.registry := None |} in
  NormalizeSource.normalizeSource
    (Source.OfObject {| Source.url := None;
                        Source.network := Some (Source.Name k);
                        Source.registry := None |}) = complete
  /\ NormalizeSource.normalizeSource
       (Source.OfString (NormalizeSource.infura k)) = complete
  /\ (forall id,
        NormalizeSource.networkOfId id NormalizeSource.NetworkIdMap = Some k ->
        NormalizeSource.normalizeSource
          (Source.OfObject {| Source.url := None;
                              Source.network := Some (Source.Id id);
                              Source.registry := None |}) = complete).
Proof.
  intros I complete. subst complete. apply SourceFacts.known_name in I.
  destruct I as [-> | [-> | [-> | [-> | ->]]]];
    (split; [reflexivity|]; split; [reflexivity|]);
    intros id H; unfold NormalizeSource.normalizeSource;
    cbn [Source.network]; rewrite H; reflexivity.
Qed.

Lemma network_url_round_trip_witness :
  NormalizeSource.normalizeSource
    (Source.OfString (NormalizeSource.infura "rinkeby")) =
  {| Source.url := Some "https://rinkeby.infura.io";
     Source.network := Some (Source.Name "rinkeby");
     Source.registry := None |}.
Proof.
  apply (network_url_round_trip "rinkeby").
  simpl. auto.
Defined.

(** X10.  [normalizeSource] never leaves a number as the network: a chain
    id is replaced by its name, or dropped when it is not a known id, so
    the network of the result is a name or is missing. *)
Theorem normalizeSource_network_is_name (source : Source.NamingServiceSource) :
  Source.network (NormalizeSource.normalizeSource source) = None
  \/ exists name,
       Source.network (NormalizeSource.normalizeSource source)
       = Some (Source.Name name).
Proof.
  destruct source as [b | s | d]; simpl.
  - right. now eexists.
  - destruct (NormalizeSource.networkFromUrl s); simpl;
      [right; now eexists | now left].
  - destruct (Source.network d) as [[nm | i]|];
      try destruct (NormalizeSource.networkOfId i
                      NormalizeSource.NetworkIdMap);
      cbn [option_map];
      repeat match goal with
             | |- context [if ?c then _ else _] => destruct c
             | |- context [option_map _ ?o] => destruct o; cbn [option_map]
             end;
      solve [now left | right; now eexists].
Qed.

(** A chain id that is not in the map is dropped, and with it the means to
    find a URL. *)
Example normalizeSource_unknown_id :
  NormalizeSource.normalizeSource
    (Source.OfObject {| Source.url := None;
                        Source.network := Some (Source.Id 7);
                        Source.registry := None |}) =
  {| Source.url := None; Source.network := None; Source.registry := None |}.
Proof. reflexivity. Qed.

(** X11.  A definition that carries a registry address is always completed
    to a network and a URL, mainnet being the default, and keeps the URL
    it was given; the CNS constructor's checks accept the result, and the
    registry of the instance is the address given, not the default of the
    network. *)
Theorem normalizeSource_with_registry
  (d : Source.SourceDefinition) (r : string) :
  Source.registry d = Some r ->
  r <> "" ->
  let s := NormalizeSource.normalizeSource (Source.OfObject d) in
  Source.registry s = Some r
  /\ Source.truthyNetwork (Source.network s) = true
  /\ Js.truthy (Source.url s) = true
  /\ (Js.truthy (Source.url d) = true -> Source.url s = Source.url d)
  /\ (Source.truthyNetwork (Source.network d) = false ->
      Source.network s = Some (Source.Name "mainnet"))
  /\ exists cns,
       Cns.make (NormalizeSource.nameOf (Source.network s))
                (Js.str (Source.url s)) (Source.registry s) = Ok cns
       /\ Cns.registryAddress cns = Some r
       /\ Cns.cnsContract cns =
          Some {| contract_url := Js.str (Source.url s);
                  contract_abi := cnsInterface;
                  contract_address := Some r |}.
Proof.
  intros R N s. subst s.
  assert (Js.truthy (Some r) = true) as Tr.
  { unfold Js.truthy. apply negb_true_iff. now apply String.eqb_neq. }
  unfold NormalizeSource.normalizeSource. rewrite R, Tr.
  cbn [Source.registry Source.network Source.url].
  (* the network after its first two steps is a non-empty name *)
  set (network1 := match Source.network d with
                   | Some (Source.Id id) =>
                       option_map Source.Name
                         (NormalizeSource.networkOfId id
                            NormalizeSource.NetworkIdMap)
                   | other => other
                   end).
  set (network2 := if Source.truthyNetwork network1 then network1
                   else Some (Source.Name "mainnet")).
  assert (exists nm, network2 = Some (Source.Name nm) /\ nm <> "") as
      (nm & E2 & Nnm).
  { subst network2. destruct (Source.truthyNetwork network1) eqn:T1.
    - subst network1. destruct (Source.network d) as [[x | id]|].
      + exists x. split; [reflexivity|]. simpl in T1.
        apply negb_true_iff in T1. now apply String.eqb_neq.
      + destruct (NormalizeSource.networkOfId id
                    NormalizeSource.NetworkIdMap) as [x|];
          [|discriminate].
        exists x. split; [reflexivity|]. simpl in T1.
        apply negb_true_iff in T1. now apply String.eqb_neq.
      + discriminate.
    - exists "mainnet". split; [reflexivity | discriminate]. }
  assert (Source.truthyNetwork network2 = true) as T2.
  { rewrite E2. simpl. apply negb_true_iff. now apply String.eqb_neq. }
  set (url2 := if Js.truthy (Source.url d) then Source.url d
               else Some (NormalizeSource.infura
                            (NormalizeSource.nameOf network2))).
  assert (Js.truthy url2 = true) as U2.
  { subst url2. destruct (Js.truthy (Source.url d)) eqn:U; [exact U|].
    reflexivity. }
  rewrite T2, U2. cbn [negb andb]. rewrite ?U2. cbn [negb andb].
  split; [reflexivity|]. split; [exact T2|]. split; [reflexivity|].
  split.
  { intros U. subst url2. now rewrite U. }
  split.
  { intros T. subst network2.
    assert (Source.truthyNetwork network1 = false) as T1; [|now rewrite T1].
    subst network1. destruct (Source.network d) as [[x | id]|];
      [exact T | | reflexivity].
    simpl in T. apply negb_false_iff, Z.eqb_eq in T. subst id.
    reflexivity. }
  rewrite E2. cbn [NormalizeSource.nameOf].
  unfold Cns.make. apply String.eqb_neq in Nnm. rewrite Nnm.
  assert ((Js.str url2 =? "")%string = false) as Nu.
  { destruct url2 as [u|]; [|discriminate]. simpl in U2 |- *.
    now apply negb_true_iff. }
  rewrite Nu, Tr. eexists. split; [reflexivity|].
  cbn [Cns.registryAddress Cns.cnsContract]. rewrite Tr. now split.
Qed.

Lemma normalizeSource_with_registry_witness :
  Source.network
    (NormalizeSource.normalizeSource
       (Source.OfObject {| Source.url := None;
                           Source.network := None;
                           Source.registry := Some Scenario.someResolver |}))
  = Some (Source.Name "mainnet").
Proof.
  destruct (normalizeSource_with_registry
              {| Source.url := None;
                 Source.network := None;
                 Source.registry := Some Scenario.someResolver |}
              Scenario.someResolver eq_refl) as (_ & _ & _ & _ & H & _).
  - discriminate.
  - apply H. reflexivity.
Defined.

(** X12.  The CNS constructor on a URL string: when the URL names no known
    network the checks fail with "Unspecified network"; when it names one,
    the instance has that network and the URL as given, and it has a
    registry contract exactly when the network is mainnet, the only entry
    of the registry map. *)
Theorem make_from_url (u : string) :
  let s := NormalizeSource.normalizeSource (Source.OfString u) in
  (NormalizeSource.networkFromUrl u = None ->
   Cns.make (NormalizeSource.nameOf (Source.network s))
            (Js.str (Source.url s)) (Source.registry s) =
   Err (JsError "Unspecified network in Namicorn CNS configuration"))
  /\ (forall k,
        NormalizeSource.networkFromUrl u = Some k ->
        exists cns,
          Cns.make (NormalizeSource.nameOf (Source.network s))
                   (Js.str (Source.url s)) (Source.registry s) = Ok cns
          /\ Cns.network cns = k
          /\ Cns.url cns = u
          /\ Cns.registryAddress cns = lookup k Cns.RegistryMap
          /\ (Cns.cnsContract cns <> None <-> k = "mainnet")).
Proof.
  simpl. split.
  - intros ->. reflexivity.
  - intros k H. rewrite H.
    apply SourceFacts.networkFromUrl_known in H as (I & _ & Nu).
    apply String.eqb_neq in Nu. apply SourceFacts.known_name in I.
    unfold Cns.make. cbn [option_map NormalizeSource.nameOf Js.str].
    destruct I as [-> | [-> | [-> | [-> | ->]]]];
      cbn [String.eqb Ascii.eqb Bool.eqb]; rewrite Nu; eexists;
      (split; [reflexivity|]); cbn;
      repeat split; try discriminate; try reflexivity;
      try (intros K; now elim K).
Qed.

Lemma make_from_url_witness :
  exists cns,
    Cns.make "ropsten" "https://ropsten.infura.io" None = Ok cns
    /\ Cns.cnsContract cns = None.
Proof.
  destruct (make_from_url "https://ropsten.infura.io") as (_ & H).
  destruct (H "ropsten" eq_refl) as (cns & E & _ & _ & _ & C).
  exists cns. split; [exact E|].
  destruct (Cns.cnsContract cns); [|reflexivity].
  assert ("ropsten" = "mainnet") by (apply C; discriminate). discriminate.
Defined.

(* ================================================================== *)
(** * The CNS backend: outcomes of its operations *)
(* ================================================================== *)

Module MoreCnsFacts.
Section Calls.

Variable sha3 : string -> string.
Variable fetchMethod : FetchMethod.
Variable cns : Cns.t.

(** The support check of [resolve] adds nothing to the one that
    [namehash] makes. *)
Lemma ensure_then_meta (d : string) :
  bind (Cns.ensureSupportedDomain d)
       (fun _ => Cns.getResolutionMeta sha3 fetchMethod cns d) =
  Cns.getResolutionMeta sha3 fetchMethod cns d.
Proof.
  unfold Cns.getResolutionMeta, Cns.namehash.
  now destruct (Cns.ensureSupportedDomain d) as [[]|e].
Qed.

Lemma getResolutionMeta_ok (d tok : string) (o r : option string) (ttl : Z) :
  Cns.getResolutionMeta sha3 fetchMethod cns d = Ok (tok, o, ttl, r) <->
  Cns.isSupportedDomain d = true
  /\ tok = EnsNamehash.hash sha3 d
  /\ Cns.owner fetchMethod cns tok = Ok o
  /\ Cns.getResolver fetchMethod cns tok = Ok r
  /\ Cns.unset r = false
  /\ exists t,
       Cns.callMethod fetchMethod (Cns.cnsContract cns) "get" ["ttl"; tok]
         = Ok t
       /\ ttl = Js.orZero (Js.parseInt t).
Proof.
  unfold Cns.getResolutionMeta, Cns.namehash, Cns.ensureSupportedDomain,
    Cns.getTtl.
  destruct (Cns.isSupportedDomain d); simpl.
  - destruct (Cns.owner fetchMethod cns (EnsNamehash.hash sha3 d))
      as [o'|e] eqn:O; simpl.
    + destruct (Cns.getResolver fetchMethod cns (EnsNamehash.hash sha3 d))
        as [r'|e] eqn:R; simpl.
      * destruct (Cns.unset r') eqn:U.
        -- split.
           ++ destruct (Cns.unset o'); discriminate.
           ++ intros (_ & -> & Ho & Hr & Hu & _).
              rewrite O in Ho. rewrite R in Hr.
              injection Hr as <-. congruence.
        -- destruct (Cns.callMethod fetchMethod (Cns.cnsContract cns) "get"
                       ["ttl"; EnsNamehash.hash sha3 d]) as [t|e] eqn:T;
             simpl.
           ++ split.
              ** intros H. injection H as <- <- <- <-.
                 repeat split; try assumption. exists t.
                 rewrite T. now split.
              ** intros (_ & -> & Ho & Hr & _ & t' & Ht & ->).
                 rewrite O in Ho. rewrite R in Hr. rewrite T in Ht.
                 now injection Ho as <-; injection Hr as <-;
                   injection Ht as <-.
           ++ split; [discriminate|].
              intros (_ & -> & _ & _ & _ & t' & Ht & _).
              rewrite T in Ht. discriminate.
      * split; [discriminate|].
        intros (_ & -> & _ & Hr & _). rewrite R in Hr. discriminate.
    + split; [discriminate|].
      intros (_ & -> & Ho & _). rewrite O in Ho. discriminate.
  - split; [discriminate|]. intros (K & _). discriminate.
Qed.

Lemma fetchAddress_code res tok coin c p :
  Cns.fetchAddress fetchMethod cns res tok coin = Err (ResolutionError c p) ->
  c = NamingServiceDown.
Proof.
  unfold Cns.fetchAddress, Cns.getRecord. apply CnsFacts.callMethod_code.
Qed.

Lemma resolve_some (d : string) (r : Types.NamicornResolution) :
  Cns.resolve sha3 fetchMethod cns d = Ok (Some r) <->
  exists tok o ttl res v,
    Cns.getResolutionMeta sha3 fetchMethod cns d = Ok (tok, o, ttl, res)
    /\ Cns.fetchAddress fetchMethod cns res tok "ETH" = Ok v
    /\ r = {| Types.addresses := [("ETH", v)];
              Types.meta := {| Types.owner := o;
                               Types.type := "cns";
                               Types.ttl := ttl |} |}.
Proof.
  unfold Cns.resolve. rewrite ensure_then_meta.
  destruct (Cns.getResolutionMeta sha3 fetchMethod cns d)
    as [[[[tok o] ttl] res]|e]; simpl.
  - destruct (Cns.fetchAddress fetchMethod cns res tok "ETH") as [v|e] eqn:F;
      simpl.
    + split.
      * intros H. injection H as <-. now exists tok, o, ttl, res, v.
      * intros (tok' & o' & ttl' & res' & v' & E & F' & ->).
        injection E as <- <- <- <-. rewrite F in F'. now injection F' as <-.
    + split; [discriminate|].
      intros (tok' & o' & ttl' & res' & v' & E & F' & _).
      injection E as <- <- <- <-. rewrite F in F'. discriminate.
  - split.
    + destruct (isResolutionError e); discriminate.
    + intros (tok' & o' & ttl' & res' & v' & E & _). discriminate.
Qed.

End Calls.
End MoreCnsFacts.

Section MoreCnsProperties.

Variable sha3 : string -> string.
Variable fetchMethod : FetchMethod.
Variable cns : Cns.t.

(** X13.  Whatever goes wrong, the CNS backend's [resolve] fails with no
    [ResolutionError] but [NamingServiceDown], which can only come from
    the address fetch: it never reports [UnsupportedDomain],
    [UnregisteredDomain] or [UnspecifiedResolver]. *)
Theorem resolve_only_NamingServiceDown (d : string) (c : ResolutionErrorCode) :
  failsWith (Cns.resolve sha3 fetchMethod cns d) c ->
  c = NamingServiceDown
  /\ exists tok o ttl res,
       Cns.getResolutionMeta sha3 fetchMethod cns d = Ok (tok, o, ttl, res)
       /\ failsWith (Cns.fetchAddress fetchMethod cns res tok "ETH")
                    NamingServiceDown.
Proof.
  intros [p E]. unfold Cns.resolve in E.
  rewrite MoreCnsFacts.ensure_then_meta in E.
  destruct (Cns.getResolutionMeta sha3 fetchMethod cns d)
    as [[[[tok o] ttl] res]|e]; simpl in E.
  - destruct (Cns.fetchAddress fetchMethod cns res tok "ETH") as [v|e] eqn:F;
      simpl in E; [discriminate|].
    injection E as ->.
    pose proof (MoreCnsFacts.fetchAddress_code _ _ _ _ _ _ _ F) as ->.
    split; [reflexivity|]. exists tok, o, ttl, res.
    split; [reflexivity|]. now exists p.
  - destruct (isResolutionError e) eqn:R; [discriminate|].
    injection E as ->. discriminate.
Qed.

(** X14.  The outcomes of the CNS backend's [resolve]: it answers [null]
    exactly when the resolution meta fails with a [ResolutionError], and
    it answers a resolution exactly when the meta is found and the ETH
    address is fetched without error; the resolution then has the type
    ["cns"], the owner and ttl of the meta, and the single entry ETH,
    which is there even when no address is on record. *)
Theorem resolve_outcomes (d : string) :
  (Cns.resolve sha3 fetchMethod cns d = Ok None <->
   exists c, failsWith (Cns.getResolutionMeta sha3 fetchMethod cns d) c)
  /\ (forall r,
        Cns.resolve sha3 fetchMethod cns d = Ok (Some r) <->
        exists tok o ttl res v,
          Cns.getResolutionMeta sha3 fetchMethod cns d
            = Ok (tok, o, ttl, res)
          /\ Cns.fetchAddress fetchMethod cns res tok "ETH" = Ok v
          /\ r = {| Types.addresses := [("ETH", v)];
                    Types.meta := {| Types.owner := o;
                                     Types.type := "cns";
                                     Types.ttl := ttl |} |}).
Proof.
  split; [|apply MoreCnsFacts.resolve_some].
  unfold Cns.resolve. rewrite MoreCnsFacts.ensure_then_meta.
  destruct (Cns.getResolutionMeta sha3 fetchMethod cns d)
    as [[[[tok o] ttl] res]|[c p|m]]; simpl.
  - split.
    + destruct (Cns.fetchAddress fetchMethod cns res tok "ETH");
        discriminate.
    + intros (c & p & E). discriminate.
  - split; [|reflexivity]. intros _. exists c, p. reflexivity.
  - split; [discriminate|]. intros (c & p & E). discriminate.
Qed.

(** X15.  The resolution meta is found exactly when the domain is
    supported, the owner and the resolver are read without error, the
    resolver is set, and the ttl is read without error; the token is the
    namehash and the ttl the number read, or 0.  The owner is not
    examined: a token with a resolver and no owner has a meta. *)
Theorem getResolutionMeta_success_iff
  (d tok : string) (o r : option string) (ttl : Z) :
  Cns.getResolutionMeta sha3 fetchMethod cns d = Ok (tok, o, ttl, r) <->
  Cns.isSupportedDomain d = true
  /\ tok = EnsNamehash.hash sha3 d
  /\ Cns.owner fetchMethod cns tok = Ok o
  /\ Cns.getResolver fetchMethod cns tok = Ok r
  /\ ~ absentOrNull r
  /\ exists t,
       Cns.callMethod fetchMethod (Cns.cnsContract cns) "get" ["ttl"; tok]
         = Ok t
       /\ ttl = Js.orZero (Js.parseInt t).
Proof.
  rewrite MoreCnsFacts.getResolutionMeta_ok.
  assert (Cns.unset r = false <-> ~ absentOrNull r) as U.
  { rewrite <- CnsFacts.unset_absentOrNull.
    destruct (Cns.unset r); split; congruence. }
  now rewrite U.
Qed.

(** X16.  [address] and [resolve] agree on ETH: when [address] finds an
    address for a ticker that reads ETH in upper case, the address is not
    empty and [resolve] answers a resolution whose ETH entry is that
    address. *)
Theorem address_resolve_agree (d t a : string) :
  Cns.address sha3 fetchMethod cns d t = Ok a ->
  Js.toUpperCase t = "ETH" ->
  a <> ""
  /\ exists o ttl,
       Cns.resolve sha3 fetchMethod cns d =
       Ok (Some {| Types.addresses := [("ETH", Some a)];
                   Types.meta := {| Types.owner := o;
                                    Types.type := "cns";
                                    Types.ttl := ttl |} |}).
Proof.
  intros A T. unfold Cns.address in A.
  destruct (Cns.getResolutionMeta sha3 fetchMethod cns d)
    as [[[[tok o] ttl] res]|e] eqn:M; simpl in A; [|discriminate].
  destruct (Cns.fetchAddress fetchMethod cns res tok t) as [v|e] eqn:F;
    simpl in A; [|discriminate].
  destruct (Js.truthy v) eqn:V; simpl in A; [|discriminate].
  injection A as <-. destruct v as [s|]; [|discriminate]. simpl.
  split.
  - intros ->. discriminate.
  - exists o, ttl. apply MoreCnsFacts.resolve_some.
    exists tok, o, ttl, res, (Some s). repeat split; [exact M|].
    unfold Cns.fetchAddress in F |- *. now rewrite T in F.
Qed.

(** X17.  [record] fails with no [ResolutionError] but [UnsupportedDomain],
    [NamingServiceDown] and [RecordNotFound]; it does not look at the
    owner or at whether a resolver is set, so it never reports
    [UnregisteredDomain] or [UnspecifiedResolver].  A value that it
    returns is not empty, not ["0x"] and not the null address. *)
Theorem record_failures (d key : string) :
  (forall c, failsWith (Cns.record sha3 fetchMethod cns d key) c ->
             c = UnsupportedDomain \/ c = NamingServiceDown \/
             c = RecordNotFound)
  /\ (forall v, Cns.record sha3 fetchMethod cns d key = Ok v ->
                v <> "" /\ v <> "0x" /\ v <> NullAddress)
  /\ (Cns.isSupportedDomain d = false ->
      failsWith (Cns.record sha3 fetchMethod cns d key) UnsupportedDomain).
Proof.
  unfold Cns.record. split; [|split].
  - intros c [p E].
    destruct (Cns.namehash sha3 d) as [tok|e] eqn:N; simpl in E.
    + destruct (Cns.getResolver fetchMethod cns tok) as [r|e] eqn:R;
        simpl in E.
      * destruct (Cns.getRecord fetchMethod (Cns.resolverContract cns r)
                    "get" [key; tok]) as [v|e] eqn:G; simpl in E.
        -- destruct (Cns.wrongRecord v); [|discriminate].
           injection E as <- _. auto.
        -- injection E as ->. unfold Cns.getRecord in G.
           apply CnsFacts.callMethod_code in G. auto.
      * injection E as ->. unfold Cns.getResolver in R.
        apply CnsFacts.callMethod_code in R. auto.
    + injection E as ->. apply CnsFacts.namehash_code in N. auto.
  - intros v.
    destruct (Cns.namehash sha3 d) as [tok|e]; simpl; [|discriminate].
    destruct (Cns.getResolver fetchMethod cns tok) as [r|e]; simpl;
      [|discriminate].
    destruct (Cns.getRecord fetchMethod (Cns.resolverContract cns r)
                "get" [key; tok]) as [x|e]; simpl; [|discriminate].
    destruct (Cns.wrongRecord x) eqn:W; [discriminate|].
    intros E. injection E as <-.
    destruct x as [s|]; [|discriminate]. simpl.
    repeat split; intros ->; discriminate.
  - intros S. rewrite (namehash_unsupported sha3 d S). simpl.
    eexists. reflexivity.
Qed.

(** X18.  A contract call fails with [NamingServiceDown] exactly when the
    transport threw an error whose message holds one of the two
    signatures; it returns exactly what the contract method returned; and
    any other error that it raises carries neither signature. *)
Theorem callMethod_outcomes
  (contract : option Contract) (methodname : string) (params : list string) :
  (failsWith (Cns.callMethod fetchMethod contract methodname params)
             NamingServiceDown <->
   exists c message,
     contract = Some c
     /\ fetchMethod c methodname params = Thrown message
     /\ (contains "Invalid JSON RPC response" message \/
         contains "legacy access request rate exceeded" message))
  /\ (forall v,
        Cns.callMethod fetchMethod contract methodname params = Ok v <->
        exists c, contract = Some c
                  /\ fetchMethod c methodname params = Returned v)
  /\ (forall message,
        Cns.callMethod fetchMethod contract methodname params
          = Err (JsError message) ->
        ~ contains "Invalid JSON RPC response" message /\
        ~ contains "legacy access request rate exceeded" message).
Proof.
  unfold failsWith. split; [|split].
  - split.
    + intros [p E]. unfold Cns.callMethod in E.
      destruct contract as [c|]; [|discriminate].
      destruct (fetchMethod c methodname params) as [v|message] eqn:F;
        [discriminate|].
      destruct (_ || _) eqn:S; [|discriminate].
      exists c, message. split; [reflexivity|]. split; [exact F|].
      now apply TransportFacts.signature_found.
    + intros (c & message & -> & F & K).
      apply TransportFacts.signature_found in K.
      unfold Cns.callMethod. rewrite F, K. now eexists.
  - intros v. split.
    + unfold Cns.callMethod. destruct contract as [c|]; [|discriminate].
      destruct (fetchMethod c methodname params) as [v'|message] eqn:F.
      * intros E. injection E as <-. exists c. now split.
      * destruct (_ || _); discriminate.
    + intros (c & -> & F). unfold Cns.callMethod. now rewrite F.
  - intros message E.
    assert (Js.search invalidJsonRpc message
            || Js.search rateExceeded message = false) as S.
    { unfold Cns.callMethod in E. destruct contract as [c|].
      - destruct (fetchMethod c methodname params) as [v|message'];
          [discriminate|].
        destruct (_ || _) eqn:S; [discriminate|]. now injection E as <-.
      - injection E as <-. reflexivity. }
    split; intros K.
    + assert (Js.search invalidJsonRpc message
              || Js.search rateExceeded message = true); [|congruence].
      apply TransportFacts.signature_found. now left.
    + assert (Js.search invalidJsonRpc message
              || Js.search rateExceeded message = true); [|congruence].
      apply TransportFacts.signature_found. now right.
Qed.

End MoreCnsProperties.

(** X19.  The resolution meta is read from the registry contract alone:
    two chains that answer the registry contract alike give the same
    meta, ttl included, whatever their resolver contracts hold. *)
Theorem getResolutionMeta_reads_registry_only
  (sha3 : string -> string) (fetch1 fetch2 : FetchMethod) (cns : Cns.t)
  (d : string) :
  (forall c methodname params,
      Cns.cnsContract cns = Some c ->
      fetch1 c methodname params = fetch2 c methodname params) ->
  Cns.getResolutionMeta sha3 fetch1 cns d =
  Cns.getResolutionMeta sha3 fetch2 cns d.
Proof.
  intros Agree.
  assert (forall methodname params,
            Cns.callMethod fetch1 (Cns.cnsContract cns) methodname params =
            Cns.callMethod fetch2 (Cns.cnsContract cns) methodname params)
    as Call.
  { intros methodname params. unfold Cns.callMethod.
    destruct (Cns.cnsContract cns) as [c|]; [|reflexivity].
    now rewrite (Agree c methodname params eq_refl). }
  unfold Cns.getResolutionMeta, Cns.owner, Cns.getResolver, Cns.getTtl.
  destruct (Cns.namehash sha3 d) as [tok|e]; simpl; [|reflexivity].
  rewrite (Call "ownerOf").
  destruct (Cns.callMethod fetch2 (Cns.cnsContract cns) "ownerOf" [tok]);
    simpl; [|reflexivity].
  rewrite (Call "resolverOf").
  destruct (Cns.callMethod fetch2 (Cns.cnsContract cns) "resolverOf" [tok]);
    simpl; [|reflexivity].
  now rewrite (Call "get").
Qed.

Lemma getResolutionMeta_reads_registry_only_witness :
  Cns.getResolutionMeta Scenario.digest Scenario.known Scenario.mainnet
                        "known.crypto" =
  Cns.getResolutionMeta Scenario.digest Scenario2.resolverDown
                        Scenario.mainnet "known.crypto".
Proof.
  apply (getResolutionMeta_reads_registry_only Scenario.digest
           Scenario.known Scenario2.resolverDown Scenario.mainnet
           "known.crypto").
  intros c methodname params E. injection E as <-. reflexivity.
Defined.

Lemma resolve_only_NamingServiceDown_witness :
  failsWith (Cns.resolve Scenario.digest Scenario2.resolverDown
                         Scenario.mainnet "known.crypto") NamingServiceDown
  /\ exists tok o ttl res,
       Cns.getResolutionMeta Scenario.digest Scenario2.resolverDown
                             Scenario.mainnet "known.crypto"
         = Ok (tok, o, ttl, res)
       /\ failsWith (Cns.fetchAddress Scenario2.resolverDown Scenario.mainnet
                                      res tok "ETH") NamingServiceDown.
Proof.
  assert (failsWith (Cns.resolve Scenario.digest Scenario2.resolverDown
                                 Scenario.mainnet "known.crypto")
                    NamingServiceDown) as H by (eexists; reflexivity).
  split; [exact H|].
  apply (resolve_only_NamingServiceDown Scenario.digest
           Scenario2.resolverDown Scenario.mainnet "known.crypto"
           NamingServiceDown H).
Defined.

Lemma address_resolve_agree_witness :
  exists o ttl,
    Cns.resolve Scenario.digest Scenario.known Scenario.mainnet
                "known.crypto" =
    Ok (Some {| Types.addresses := [("ETH", Some Scenario.someAddress)];
                Types.meta := {| Types.owner := o;
                                 Types.type := "cns";
                                 Types.ttl := ttl |} |}).
Proof.
  apply (address_resolve_agree Scenario.digest Scenario.known
           Scenario.mainnet "known.crypto" "eth" Scenario.someAddress);
    reflexivity.
Defined.

(** X20.  In the abstract Ethereum service [resolver] returns an address
    exactly when the namehash and the resolver read succeed and the
    resolver is not null; the owner, though requested, plays no part in
    that case, so a failing owner read does not fail the lookup. *)
Theorem resolver_success_iff
  (namehash : string -> result string)
  (owner : string -> result (option string))
  (getResolver : string -> result (option string))
  (d : string) (r : option string) :
  EthereumNamingService.resolver namehash owner getResolver d = Ok r <->
  exists nodeHash,
    namehash d = Ok nodeHash
    /\ getResolver nodeHash = Ok r
    /\ EthereumNamingService.isNullAddress r = false.
Proof.
  split.
  - unfold EthereumNamingService.resolver.
    destruct (namehash d) as [h|e] eqn:N; simpl; [|discriminate].
    destruct (getResolver h) as [r'|e] eqn:R; simpl; [|discriminate].
    destruct (EthereumNamingService.isNullAddress r') eqn:Z.
    + rewrite orb_true_r.
      pose proof (throwOwnershipError_throws owner d (Some (owner d))) as T.
      destruct (EthereumNamingService.throwOwnershipError owner d
                  (Some (owner d))) as [[]|e]; simpl;
        [now elim T | discriminate].
    + intros H. exists h. split; [reflexivity|].
      unfold EthereumNamingService.isNullAddress in Z.
      apply orb_false_elim in Z as [Z1 Z2]. rewrite Z1 in H. simpl in H.
      injection H as <-. split; [exact R|].
      unfold EthereumNamingService.isNullAddress. now rewrite Z1, Z2.
  - intros (h & N & R & Z). now apply (resolver_present _ _ _ d h r).
Qed.

(* ================================================================== *)
(** * The ZNS backend: records and resolution *)
(* ================================================================== *)

Module MoreZnsFacts.

Lemma lookup_upsert_same {V : Type} (k : string) (v : V) obj :
  lookup k (Zns.upsert k v obj) = Some v.
Proof.
  induction obj as [|[k0 v0] obj IH]; simpl.
  - now rewrite String.eqb_refl.
  - destruct (String.eqb_spec k0 k) as [->|N]; simpl.
    + now rewrite String.eqb_refl.
    + apply String.eqb_neq in N. now rewrite N.
Qed.

Lemma lookup_upsert_other {V : Type} (k k' : string) (v : V) obj :
  k <> k' -> lookup k' (Zns.upsert k v obj) = lookup k' obj.
Proof.
  intros N. induction obj as [|[k0 v0] obj IH]; simpl.
  - apply String.eqb_neq in N. now rewrite N.
  - destruct (String.eqb_spec k0 k) as [->|N0]; simpl.
    + apply String.eqb_neq in N. now rewrite N.
    + now rewrite IH.
Qed.

Lemma upsert_absent {V : Type} (k : string) (v : V) obj :
  lookup k obj = None -> Zns.upsert k v obj = (obj ++ [(k, v)])%list.
Proof.
  induction obj as [|[k0 v0] obj IH]; simpl; [reflexivity|].
  destruct (k0 =? k)%string; [discriminate|].
  intros H. now rewrite IH.
Qed.

Lemma set_path_cons key rest obj v :
  rest <> [] ->
  Zns.set_path obj (key :: rest) v =
  Zns.upsert key (Zns.Obj (Zns.set_path (childOf key obj) rest v)) obj.
Proof. destruct rest; [now intros [] | reflexivity]. Qed.

Lemma get_path_cons key rest obj :
  rest <> [] ->
  get_path obj (key :: rest) = get_path (childOf key obj) rest.
Proof.
  destruct rest as [|k rest]; [now intros []|]. intros _.
  unfold childOf. cbn [get_path].
  destruct (lookup key obj) as [[e|fields]|]; try reflexivity;
    now destruct rest.
Qed.

Lemma childOf_upsert key fields obj :
  childOf key (Zns.upsert key (Zns.Obj fields) obj) = fields.
Proof. unfold childOf. now rewrite lookup_upsert_same. Qed.

Lemma childOf_upsert_other key key' n obj :
  key <> key' -> childOf key' (Zns.upsert key n obj) = childOf key' obj.
Proof. intros N. unfold childOf. now rewrite lookup_upsert_other. Qed.

Lemma lookup_map_absent (t : string) (l : list (string * string))
  (f : string * string -> Zns.node) :
  ~ In t (map fst l) ->
  lookup t (map (fun ta => (fst ta, f ta)) l) = None.
Proof.
  induction l as [|[k a] l IH]; simpl; [reflexivity|]. intros N.
  destruct (String.eqb_spec k t) as [->|_]; [elim N; now left|].
  apply IH. intros I. apply N. now right.
Qed.

Lemma set_address (l : list (string * string)) (t a : string) :
  dotless t = true ->
  ~ In t (map fst l) ->
  Zns.set (cryptoObject l) ("crypto." ++ t ++ ".address") (Zns.Plain a) =
  cryptoObject (l ++ [(t, a)]).
Proof.
  intros D N. unfold Zns.set.
  rewrite (MoreStringFacts.split_address_key t D).
  destruct l as [|x l].
  - reflexivity.
  - remember (x :: l) as l' eqn:E.
    assert (cryptoObject l' =
            [("crypto",
              Zns.Obj (map (fun ta =>
                              (fst ta,
                               Zns.Obj [("address",
                                         Zns.Leaf (Zns.Plain (snd ta)))]))
                           l'))]) as C by now subst l'.
    assert (cryptoObject (l' ++ [(t, a)]) =
            [("crypto",
              Zns.Obj (map (fun ta =>
                              (fst ta,
                               Zns.Obj [("address",
                                         Zns.Leaf (Zns.Plain (snd ta)))]))
                           (l' ++ [(t, a)])))]) as C' by now subst l'.
    rewrite C, C'. clear C C' E.
    rewrite (set_path_cons "crypto" [t; "address"]) by discriminate.
    unfold childOf at 1. cbn [lookup String.eqb Ascii.eqb Bool.eqb].
    rewrite (set_path_cons t ["address"]) by discriminate.
    unfold childOf.
    rewrite (lookup_map_absent t l' _ N).
    rewrite (upsert_absent t) by now apply lookup_map_absent.
    rewrite map_app. reflexivity.
Qed.

Lemma fold_addresses (l2 l1 : list (string * string)) :
  forallb dotless (map fst l2) = true ->
  NoDup (map fst (l1 ++ l2)) ->
  fold_left (fun result kv => Zns.set result (fst kv) (snd kv))
            (map (fun ta => ("crypto." ++ fst ta ++ ".address",
                             Zns.Plain (snd ta))) l2)
            (cryptoObject l1) =
  cryptoObject (l1 ++ l2).
Proof.
  revert l1. induction l2 as [|[t a] l2 IH]; intros l1 D U.
  - now rewrite app_nil_r.
  - simpl in D. apply andb_prop in D as [Dt D].
    cbn [map fold_left fst snd].
    rewrite (set_address l1 t a Dt).
    + replace (l1 ++ (t, a) :: l2)%list with ((l1 ++ [(t, a)]) ++ l2)%list
        by now rewrite <- app_assoc.
      apply IH; [exact D|]. now rewrite <- app_assoc.
    + rewrite map_app in U. simpl in U.
      apply NoDup_remove_2 in U. intros I. apply U.
      apply in_or_app. now left.
Qed.

Lemma upperOrDigit_not_dot (c : ascii) :
  upperOrDigit c = true -> not_dot c = true.
Proof.
  destruct c as [[] [] [] [] [] [] [] []]; try reflexivity; discriminate.
Qed.

Lemma tickerLike_dotless (s : string) :
  tickerLike s = true -> dotless s = true.
Proof.
  unfold tickerLike, dotless. destruct s as [|c s]; [discriminate|].
  intros H. apply andb_prop in H as [_ H]. revert H.
  generalize (String c s). clear c s. intros s.
  induction s as [|c s IH]; simpl; [reflexivity|]. intros H.
  apply andb_prop in H as [Hc H].
  now rewrite (upperOrDigit_not_dot c Hc), IH.
Qed.

Lemma tickers_dotless (l : list string) :
  forallb tickerLike l = true -> forallb dotless l = true.
Proof.
  induction l as [|s l IH]; simpl; [reflexivity|]. intros H.
  apply andb_prop in H as [Hs H].
  now rewrite (tickerLike_dotless s Hs), IH.
Qed.

Lemma transform_flatRecords (addresses : list (string * string)) (ttl : string) :
  forallb dotless (map fst addresses) = true ->
  NoDup (map fst addresses) ->
  Zns.transform (Some (flatRecords addresses ttl)) =
  (cryptoObject addresses ++ [("ttl", Zns.Leaf (Zns.Plain ttl))])%list.
Proof.
  intros D U. unfold Zns.transform, flatRecords.
  rewrite fold_left_app.
  pose proof (fold_addresses addresses [] D U) as K.
  change (cryptoObject []) with (@nil (string * Zns.node)) in K.
  change ([] ++ addresses)%list with addresses in K.
  rewrite K. cbn [fold_left fst snd].
  destruct addresses; reflexivity.
Qed.

End MoreZnsFacts.

(** X21.  [_.set] followed by a read of the same path gives the value
    written, whatever the object held before: an inner value that was no
    object is replaced on the way. *)
Theorem get_set_path
  (obj : list (string * Zns.node)) (path : list string) (v : Zns.entry) :
  path <> [] ->
  get_path (Zns.set_path obj path v) path = Some (Zns.Leaf v).
Proof.
  intros N. revert obj.
  induction path as [|key rest IH]; [now elim N|]. intros obj.
  destruct rest as [|k rest].
  - simpl. apply MoreZnsFacts.lookup_upsert_same.
  - rewrite MoreZnsFacts.set_path_cons, MoreZnsFacts.get_path_cons
      by discriminate.
    rewrite MoreZnsFacts.childOf_upsert. apply IH. discriminate.
Qed.

Lemma get_set_path_witness :
  get_path (Zns.set_path [("crypto", Zns.Leaf (Zns.Plain "x"))]
                         ["crypto"; "ZIL"; "address"] (Zns.Plain "zil1"))
           ["crypto"; "ZIL"; "address"] =
  Some (Zns.Leaf (Zns.Plain "zil1")).
Proof. apply get_set_path. discriminate. Defined.

Section MoreZnsProperties.

Variable namehash : string -> string.
Variable toChecksumAddress : string -> result string.
Variable toBech32Address : string -> result string.
Variable contractsAt : string -> Zns.ZContract.
Variable send : string -> string -> string -> list string
                -> result Zns.response.

(** X23.  A domain that is registered with the null address as its
    resolver resolves without a read of any resolver: no addresses, ttl
    0, type ["zns"].  The owner is returned as it is unless it begins with
    ["0x"], in which case it is converted with [toBech32Address], and an
    error of that conversion fails the resolution. *)
Theorem resolve_null_resolver (d o : string) :
  Zns.getContractMapValue send (Zns.registry contractsAt) "records"
                          (namehash d)
    = Ok (Some (Zns.Arguments o NullAddress)) ->
  let answer owner :=
    Ok (Some {| Types.addresses := [];
                Types.meta :=
                  {| Types.owner :=
                       if (owner =? "")%string then None else Some owner;
                     Types.type := "zns";
                     Types.ttl := 0 |} |}) in
  (Js.startsWith "0x" o = false ->
   Zns.resolve namehash toChecksumAddress toBech32Address contractsAt send d
   = answer o)
  /\ (forall b, Js.startsWith "0x" o = true ->
                toBech32Address o = Ok b ->
                Zns.resolve namehash toChecksumAddress toBech32Address
                            contractsAt send d = answer b)
  /\ (forall e, Js.startsWith "0x" o = true ->
                toBech32Address o = Err e ->
                Zns.resolve namehash toChecksumAddress toBech32Address
                            contractsAt send d = Err e).
Proof.
  intros R answer. subst answer. unfold Zns.resolve. rewrite R.
  cbn [bind Zns.falsy]. unfold Zns.getResolverRecordsStructure.
  rewrite String.eqb_refl. cbn [bind].
  repeat split.
  - intros S. now rewrite S.
  - intros b S B. now rewrite S, B.
  - intros e S B. now rewrite S, B.
Qed.

(** X24.  The flat records of a resolver are unfolded by ticker: for a
    registered domain whose resolver holds [crypto.<T>.address] for some
    distinct tickers, each made of upper-case letters and digits and
    beginning with a letter, and [ttl], the resolution lists exactly those
    tickers with their addresses, in the order of the records, and carries
    the ttl as a number. *)
Theorem resolve_flat_records
  (d o r checksummed : string) (addresses : list (string * string))
  (ttl : string) :
  Zns.getContractMapValue send (Zns.registry contractsAt) "records"
                          (namehash d)
    = Ok (Some (Zns.Arguments o r)) ->
  r <> NullAddress ->
  toChecksumAddress r = Ok checksummed ->
  Zns.getContractField send (contractsAt checksummed) "records" []
    = Ok (Some (flatRecords addresses ttl)) ->
  forallb tickerLike (map fst addresses) = true ->
  NoDup (map fst addresses) ->
  Js.startsWith "0x" o = false ->
  o <> "" ->
  Zns.resolve namehash toChecksumAddress toBech32Address contractsAt send d =
  Ok (Some {| Types.addresses :=
                map (fun ta => (fst ta, Some (snd ta))) addresses;
              Types.meta :=
                {| Types.owner := Some o;
                   Types.type := "zns";
                   Types.ttl := Js.orZero (Js.parseInt (Some ttl)) |} |}).
Proof.
  intros R Nr C F D U S No.
  apply MoreZnsFacts.tickers_dotless in D.
  unfold Zns.resolve. rewrite R.
  cbn [bind Zns.falsy]. unfold Zns.getResolverRecordsStructure.
  apply String.eqb_neq in Nr. rewrite Nr, C. cbn [bind]. rewrite F.
  cbn [bind]. rewrite (MoreZnsFacts.transform_flatRecords addresses ttl D U).
  rewrite S. cbn [bind]. apply String.eqb_neq in No. rewrite No.
  f_equal. f_equal. f_equal.
  - destruct addresses as [|x l]; [reflexivity|].
    cbn [cryptoObject app lookup String.eqb Ascii.eqb Bool.eqb
         Zns.mapValues_address].
    rewrite map_map. apply map_ext. intros [t a]. reflexivity.
  - f_equal. f_equal. f_equal.
    destruct addresses as [|x l]; reflexivity.
Qed.

End MoreZnsProperties.

Lemma resolve_null_resolver_witness :
  Zns.resolve Scenario.digest Scenario.convert Scenario.convert
              Scenario.contractsAt (Scenario2.node NullAddress []) "brad.zil"
  = Ok (Some {| Types.addresses := [];
                Types.meta := {| Types.owner := Some Scenario2.zilOwner;
                                 Types.type := "zns";
                                 Types.ttl := 0 |} |}).
Proof.
  destruct (resolve_null_resolver Scenario.digest Scenario.convert
              Scenario.convert Scenario.contractsAt
              (Scenario2.node NullAddress []) "brad.zil" Scenario2.zilOwner
              eq_refl) as (H & _).
  apply H. reflexivity.
Defined.

Lemma resolve_flat_records_witness :
  Zns.resolve Scenario.digest Scenario.convert Scenario.convert
              Scenario.contractsAt
              (Scenario2.node Scenario2.zilResolver
                 (flatRecords [("ZIL", Scenario2.zilOwner);
                               ("ETH", Scenario.someAddress)] "120"))
              "brad.zil"
  = Ok (Some {| Types.addresses :=
                  [("ZIL", Some Scenario2.zilOwner);
                   ("ETH", Some Scenario.someAddress)];
                Types.meta := {| Types.owner := Some Scenario2.zilOwner;
                                 Types.type := "zns";
                                 Types.ttl := 120 |} |}).
Proof.
  apply (resolve_flat_records Scenario.digest Scenario.convert
           Scenario.convert Scenario.contractsAt
           (Scenario2.node Scenario2.zilResolver
              (flatRecords [("ZIL", Scenario2.zilOwner);
                            ("ETH", Scenario.someAddress)] "120"))
           "brad.zil" Scenario2.zilOwner Scenario2.zilResolver
           Scenario2.zilResolver
           [("ZIL", Scenario2.zilOwner); ("ETH", Scenario.someAddress)]
           "120");
    try reflexivity; try discriminate.
  repeat constructor; simpl; intuition discriminate.
Defined.
